(** * Todo API on AWS Lambda and DynamoDB: the four request handlers

    A shallow embedding of the handlers [createTodo], [getTodos],
    [updateTodo] and [deleteTodo] (one [index.mjs] each), of the fragment
    of JavaScript they are written in, and of the DynamoDB table they talk
    to, followed by the properties of the handlers. *)

From Stdlib Require Import String Ascii ZArith List Lia.
From stdpp Require Import gmap strings list fin_maps pretty sorting.

Set Warnings "-register-all".
Local Open Scope string_scope.
Local Open Scope Z_scope.

(** ** JavaScript values

    The values that reach a handler come out of [JSON.parse] or are built
    by object literals, so they are JSON values plus [undefined].  An
    object is the list of its own properties in insertion order, without
    duplicate keys.  Numbers are the integral ones: the handlers only test
    them for truthiness and pass them on. *)

Inductive JsVal : Type :=
| JUndefined
| JNull
| JBool (b : bool)
| JNumber (n : Z)
| JString (s : string)
| JArray (xs : list JsVal)
| JObject (props : list (string * JsVal)).

(** An [Error] object: [error.name] and [error.message]. *)
Record JsError := mkError { name : string; message : string }.

(** The result of evaluating an expression that may throw. *)
Inductive Outcome (A : Type) : Type :=
| Return (a : A)
| Throw (e : JsError).
Arguments Return {A} a.
Arguments Throw {A} e.

Definition TypeError (msg : string) : JsError := mkError "TypeError" msg.
Definition SyntaxError (msg : string) : JsError := mkError "SyntaxError" msg.

(** [ToBoolean]: the falsy values are [undefined], [null], [false], [0]
    and the empty string. *)
Definition truthy (v : JsVal) : bool :=
  match v with
  | JUndefined | JNull => false
  | JBool b => b
  | JNumber n => negb (n =? 0)
  | JString s => negb (String.eqb s "")
  | JArray _ | JObject _ => true
  end.

(** [a || b] *)
Definition js_or (a b : JsVal) : JsVal := if truthy a then a else b.

(** [v == null]: [undefined] or [null], the values without properties. *)
Definition nullish (v : JsVal) : bool :=
  match v with JUndefined | JNull => true | _ => false end.

(** [v !== undefined] *)
Definition is_defined (v : JsVal) : bool :=
  match v with JUndefined => false | _ => true end.

(** Own property [k] of an object given by its property list. *)
Fixpoint assoc (k : string) (props : list (string * JsVal)) : JsVal :=
  match props with
  | [] => JUndefined
  | (k', v) :: rest => if String.eqb k k' then v else assoc k rest
  end.

(** Own property [k] of a property list, if there is one. *)
Fixpoint find_prop (k : string) (props : list (string * JsVal)) : option JsVal :=
  match props with
  | [] => None
  | (k', v) :: rest => if String.eqb k k' then Some v else find_prop k rest
  end.

(** [o.k] and [o[k]].  Reading a property of [undefined] or [null] throws a
    [TypeError].  The names the handlers read ([pathParameters], [title],
    [Attributes], ...) are neither indices nor [length], nor inherited from
    a prototype, so on a string, number, boolean or array the read gives
    [undefined]. *)
Definition get (o : JsVal) (k : string) : Outcome JsVal :=
  match o with
  | JUndefined =>
      Throw (TypeError ("Cannot read properties of undefined (reading '" ++ k ++ "')"))
  | JNull =>
      Throw (TypeError ("Cannot read properties of null (reading '" ++ k ++ "')"))
  | JObject props => Return (assoc k props)
  | _ => Return JUndefined
  end.

(** [o?.k] *)
Definition get_opt (o : JsVal) (k : string) : JsVal :=
  match o with
  | JObject props => assoc k props
  | _ => JUndefined
  end.

(** [o[k] = v] on a property list: overwrite in place or append. *)
Fixpoint set_prop (k : string) (v : JsVal) (props : list (string * JsVal))
  : list (string * JsVal) :=
  match props with
  | [] => [(k, v)]
  | (k', v') :: rest =>
      if String.eqb k k' then (k, v) :: rest else (k', v') :: set_prop k v rest
  end.

(** [xs.join(sep)] on an array of strings. *)
Fixpoint join (sep : string) (xs : list string) : string :=
  match xs with
  | [] => ""
  | [x] => x
  | x :: rest => x ++ sep ++ join sep rest
  end.

(** [ToString], as [JSON.parse(v)] and a template literal apply it.  An
    object is converted through its [toString]: the inherited one answers
    [[object Object]]; an own property [toString], which in a JSON value
    is never a function, hides it, and the conversion throws.  An array
    joins the texts of its elements, [null] and [undefined] counting as
    empty.  An integer prints in decimal digits (below [10 ^ 21] in
    magnitude, where JavaScript does so too). *)
Fixpoint to_string (v : JsVal) : Outcome string :=
  match v with
  | JUndefined => Return "undefined"
  | JNull => Return "null"
  | JBool b => Return (if b then "true" else "false")
  | JNumber n => Return (pretty n)
  | JString s => Return s
  | JArray xs =>
      match
        (fix elements (l : list JsVal) : Outcome (list string) :=
           match l with
           | [] => Return []
           | x :: rest =>
               match (match x with
                      | JUndefined | JNull => Return ""
                      | _ => to_string x
                      end) with
               | Throw e => Throw e
               | Return text =>
                   match elements rest with
                   | Throw e => Throw e
                   | Return texts => Return (text :: texts)
                   end
               end
           end) xs
      with
      | Throw e => Throw e
      | Return texts => Return (join "," texts)
      end
  | JObject props =>
      match find_prop "toString" props with
      | Some _ => Throw (TypeError "Cannot convert object to primitive value")
      | None => Return "[object Object]"
      end
  end.

(** The text of a value whose conversion does not throw. *)
Definition text_of (v : JsVal) : string :=
  match to_string v with
  | Return text => text
  | Throw _ => ""
  end.

(** [String(error)], as in ["..." + error]: [Error.prototype.toString]. *)
Definition error_toString (e : JsError) : string :=
  if String.eqb (name e) "" then message e
  else if String.eqb (message e) "" then name e
  else name e ++ ": " ++ message e.

(** ** [JSON.stringify] *)

Definition dquote : ascii := "034"%char.

Definition hex_digit (n : nat) : ascii :=
  ascii_of_nat (if Nat.ltb n 10 then 48 + n else 87 + n).

(** One character inside a JSON string literal. *)
Definition escape_char (c : ascii) : string :=
  let n := nat_of_ascii c in
  if Nat.eqb n 34 then String "\" (String dquote "")
  else if Nat.eqb n 92 then "\\"
  else if Nat.eqb n 8 then "\b"
  else if Nat.eqb n 9 then "\t"
  else if Nat.eqb n 10 then "\n"
  else if Nat.eqb n 12 then "\f"
  else if Nat.eqb n 13 then "\r"
  else if Nat.ltb n 32
       then "\u00" ++ String (hex_digit (Nat.div n 16)) (String (hex_digit (Nat.modulo n 16)) "")
  else String c "".

Fixpoint escape (s : string) : string :=
  match s with
  | EmptyString => ""
  | String c rest => escape_char c ++ escape rest
  end.

Definition quote (s : string) : string :=
  String dquote (escape s ++ String dquote "").

(** [None] stands for the result [undefined].  A property whose value is
    [undefined] is left out of an object; in an array it prints as
    [null]. *)
Fixpoint stringify (v : JsVal) : option string :=
  match v with
  | JUndefined => None
  | JNull => Some "null"
  | JBool b => Some (if b then "true" else "false")
  | JNumber n => Some (pretty n)
  | JString s => Some (quote s)
  | JArray xs =>
      Some ("[" ++ join "," (map (fun x => default "null" (stringify x)) xs) ++ "]")
  | JObject props =>
      Some ("{" ++ join "," (omap (fun p => match stringify (snd p) with
                                            | Some s => Some (quote (fst p) ++ ":" ++ s)
                                            | None => None
                                            end) props) ++ "}")
  end.

Definition JSON_stringify (v : JsVal) : JsVal :=
  match stringify v with
  | Some s => JString s
  | None => JUndefined
  end.

(** [hay.includes(needle)] *)
Fixpoint includes (hay needle : string) : bool :=
  String.prefix needle hay ||
  match hay with
  | EmptyString => false
  | String _ rest => includes rest needle
  end.

(** ** The runtime around a handler

    A handler reaches the outside through the AWS SDK client
    ([ddb.send(command)] and [client.send(command)]), through
    [JSON.parse], through [crypto.randomUUID()], through the clock and
    through [process.env].  Output to the console is not part of the
    model. *)

Inductive Command : Type :=
| PutCommand (input : JsVal)
| QueryCommand (input : JsVal)
| UpdateCommand (input : JsVal)
| DeleteItemCommand (input : JsVal).

(** The client: a call either resolves to an output or rejects with an
    error, and may change the store behind it. *)
Class StoreClient : Type := {
  Db : Type;
  send : Command -> Db -> Outcome JsVal * Db
}.

(** [JSON.parse] on a text: a value or a [SyntaxError]. *)
Class Json : Type := {
  JSON_parse : string -> Outcome JsVal
}.

Section Runtime.
Context `{StoreClient}.

(** [sent] records the commands handed to the client, oldest first.
    [randomUUID n] is the answer of the [n]-th call of
    [crypto.randomUUID()], [now n] the answer of the [n]-th evaluation of
    [new Date().toISOString()]. *)
Record World : Type := mkWorld {
  store : Db;
  sent : list Command;
  TABLE_NAME : JsVal;
  randomUUID : nat -> string;
  uuids_drawn : nat;
  now : nat -> string;
  clock_reads : nat
}.

Definition M (A : Type) : Type := World -> Outcome A * World.

Definition ret {A} (a : A) : M A := fun w => (Return a, w).

Definition bind {A B} (c : M A) (k : A -> M B) : M B :=
  fun w => match c w with
           | (Return a, w') => k a w'
           | (Throw e, w') => (Throw e, w')
           end.

Definition lift {A} (o : Outcome A) : M A := fun w => (o, w).

(** The world once the client has handed [cmd] to the store and the store
    has moved to [d]. *)
Definition called (cmd : Command) (d : Db) (w : World) : World :=
  mkWorld d (sent w ++ [cmd]) (TABLE_NAME w)
          (randomUUID w) (uuids_drawn w) (now w) (clock_reads w).

Definition drawn (w : World) : World :=
  mkWorld (store w) (sent w) (TABLE_NAME w)
          (randomUUID w) (S (uuids_drawn w)) (now w) (clock_reads w).

Definition ticked (w : World) : World :=
  mkWorld (store w) (sent w) (TABLE_NAME w)
          (randomUUID w) (uuids_drawn w) (now w) (S (clock_reads w)).

(** [await client.send(command)] *)
Definition client_send (cmd : Command) : M JsVal :=
  fun w => let '(r, d) := send cmd (store w) in (r, called cmd d w).

(** [crypto.randomUUID()] *)
Definition crypto_randomUUID : M string :=
  fun w => (Return (randomUUID w (uuids_drawn w)), drawn w).

(** [new Date().toISOString()] *)
Definition Date_toISOString : M string :=
  fun w => (Return (now w (clock_reads w)), ticked w).

(** The response envelope [{ statusCode, headers, body }]. *)
Record Response : Type := mkResponse {
  statusCode : Z;
  headers : option (list (string * string));
  body : JsVal
}.

(** [try { ... return r } catch (error) { return h(error) }] *)
Definition try_catch (block : M Response) (h : JsError -> Response)
  : World -> Response * World :=
  fun w => match block w with
           | (Return r, w') => (r, w')
           | (Throw e, w') => (h e, w')
           end.

End Runtime.

Notation "'let*' x ':=' c 'in' k" := (bind c (fun x => k))
  (at level 10, x name, c at level 100, k at level 200).

Definition json_headers : option (list (string * string)) :=
  Some [("Content-Type", "application/json")].

(** ** createTodo/index.mjs *)
Module createTodo.
Section handler.
Context `{StoreClient} `{Json}.

Definition handler (event : JsVal) : World -> Response * World :=
  try_catch
    (let* raw := lift (get event "body") in
     let* text := lift (to_string raw) in
     let* body := lift (JSON_parse text) in
     if negb (truthy body) then
       ret (mkResponse 400 None
              (JSON_stringify (JObject [("message", JString "Request body is missing")])))
     else
       let* userID := lift (get body "userID") in
       let* title := lift (get body "title") in
       let* description := lift (get body "description") in
       if negb (truthy userID) || negb (truthy title) then
         ret (mkResponse 400 None
                (JSON_stringify (JObject [("message", JString "Missing required fields")])))
       else
         let* taskID := crypto_randomUUID in
         let* createdAt := Date_toISOString in
         let* updatedAt := Date_toISOString in
         let item := JObject [("userID", userID);
                              ("taskID", JString taskID);
                              ("title", title);
                              ("description", description);
                              ("status", JString "pending");
                              ("createdAt", JString createdAt);
                              ("updatedAt", JString updatedAt)] in
         let* _ := client_send (PutCommand (JObject [("TableName", JString "todos");
                                                     ("Item", item)])) in
         ret (mkResponse 200 None (JSON_stringify item)))
    (fun error =>
       mkResponse 500 None
         (JSON_stringify
            (JObject [("message",
                       JString ("Internal server error" ++ error_toString error))]))).

End handler.
End createTodo.

(** ** getTodos *)
Module getTodos.
Section handler.
Context `{StoreClient}.

Definition handler (event : JsVal) : World -> Response * World :=
  try_catch
    (let* queryStringParameters := lift (get event "queryStringParameters") in
     let userId := js_or (get_opt queryStringParameters "userId")
                         (get_opt queryStringParameters "userID") in
     if negb (truthy userId) then
       ret (mkResponse 400 None
              (JSON_stringify
                 (JObject [("message", JString "Missing userId in query parameters")])))
     else
       let params := JObject [("TableName", JString "todos");
                              ("KeyConditionExpression", JString "userID = :uid");
                              ("ExpressionAttributeValues", JObject [(":uid", userId)])] in
       let* result := client_send (QueryCommand params) in
       let* Items := lift (get result "Items") in
       ret (mkResponse 200 json_headers (JSON_stringify Items)))
    (fun error =>
       mkResponse 500 None
         (JSON_stringify (JObject [("message", JString "Internal server error")]))).

End handler.
End getTodos.

(** ** updateTodo/index.mjs *)
Module updateTodo.
Section handler.
Context `{StoreClient} `{Json}.

(** The three accumulators of the loop: [updateExpressions],
    [expressionValues], [expressionNames]. *)
Record Acc : Type := mkAcc {
  updateExpressions : list string;
  expressionValues : list (string * JsVal);
  expressionNames : list (string * JsVal)
}.

(** [for (const key of keys) { if (body[key] !== undefined) { ... } }] *)
Fixpoint for_keys (keys : list string) (body : JsVal) (acc : Acc) : Outcome Acc :=
  match keys with
  | [] => Return acc
  | key :: rest =>
      match get body key with
      | Throw e => Throw e
      | Return v =>
          if is_defined v then
            for_keys rest body
              (mkAcc (updateExpressions acc ++ ["#" ++ key ++ " = :" ++ key])
                     (set_prop (":" ++ key) v (expressionValues acc))
                     (set_prop ("#" ++ key) (JString key) (expressionNames acc)))
          else for_keys rest body acc
      end
  end.

(** [typeof raw === "string" ? JSON.parse(raw) : raw] *)
Definition body_of (raw : JsVal) : Outcome JsVal :=
  match raw with
  | JString s => JSON_parse s
  | _ => Return raw
  end.

Definition handler (event : JsVal) : World -> Response * World :=
  try_catch
    (let* pathParameters := lift (get event "pathParameters") in
     let taskID := get_opt pathParameters "taskID" in
     let* queryStringParameters := lift (get event "queryStringParameters") in
     let userId := js_or (get_opt queryStringParameters "userId")
                         (get_opt queryStringParameters "userID") in
     if negb (truthy taskID) || negb (truthy userId) then
       ret (mkResponse 400 None
              (JSON_stringify (JObject [("message", JString "Missing taskID or userId")])))
     else
       let* raw := lift (get event "body") in
       let* body := lift (body_of raw) in
       let* acc := lift (for_keys ["title"; "description"; "status"] body
                                  (mkAcc [] [] [])) in
       if Nat.eqb (length (updateExpressions acc)) 0 then
         ret (mkResponse 400 None
                (JSON_stringify (JObject [("message", JString "No valid fields to update")])))
       else
         let params :=
           JObject [("TableName", JString "todos");
                    ("Key", JObject [("userID", userId); ("taskID", taskID)]);
                    ("UpdateExpression",
                     JString ("SET " ++ join ", " (updateExpressions acc)));
                    ("ExpressionAttributeValues", JObject (expressionValues acc));
                    ("ExpressionAttributeNames", JObject (expressionNames acc));
                    ("ReturnValues", JString "ALL_NEW")] in
         let* result := client_send (UpdateCommand params) in
         let* Attributes := lift (get result "Attributes") in
         ret (mkResponse 200 json_headers (JSON_stringify Attributes)))
    (fun error =>
       mkResponse 500 None
         (JSON_stringify (JObject [("message", JString "Internal server error")]))).

End handler.
End updateTodo.

(** ** deleteTodo/index.mjs *)
Module deleteTodo.
Section handler.
Context `{StoreClient}.

Definition handler (event : JsVal) : World -> Response * World :=
  fun w0 =>
    let tableName := TABLE_NAME w0 in
    try_catch
      (let* pathParameters := lift (get event "pathParameters") in
       let userID := get_opt pathParameters "userID" in
       let taskID := get_opt pathParameters "taskID" in
       if negb (truthy userID) || negb (truthy taskID) then
         ret (mkResponse 400 None
                (JSON_stringify
                   (JObject [("message",
                              JString "Missing 'userID' or 'taskID' in path parameters")])))
       else
         let params :=
           JObject [("TableName", tableName);
                    ("Key", JObject [("userID", JObject [("S", userID)]);
                                     ("taskID", JObject [("S", taskID)])]);
                    ("ReturnValues", JString "ALL_OLD")] in
         let* result := client_send (DeleteItemCommand params) in
         let* Attributes := lift (get result "Attributes") in
         if negb (truthy Attributes) then
           let* user := lift (to_string userID) in
           let* task := lift (to_string taskID) in
           ret (mkResponse 404 None
                  (JSON_stringify
                     (JObject [("message",
                                JString ("Todo with userID '" ++ user
                                         ++ "' and taskID '" ++ task
                                         ++ "' not found"))])))
         else
           let* task := lift (to_string taskID) in
           let* user := lift (to_string userID) in
           ret (mkResponse 200 None
                  (JSON_stringify
                     (JObject [("message",
                                JString ("Todo '" ++ task
                                         ++ "' deleted successfully for user '"
                                         ++ user ++ "'"))]))))
      (fun error =>
         mkResponse 500 None
           (JSON_stringify
              (JObject [("message", JString "Internal server error while deleting todo");
                        ("error", JString (message error))])))
      w0.

End handler.
End deleteTodo.

(** ** The DynamoDB table behind the client

    One table, [todos], with the composite primary key
    ([userID] : S, [taskID] : S) that the handlers address.  An item is
    the property list of its attributes, key attributes included.  A
    query is answered with one page of at most 1 MB, and a request either
    fails without effect or takes effect at once. *)
Module DynamoDB.

(** While [outage] holds an error, every request to the service is
    rejected with it. *)
Record Dynamo : Type := mkDynamo {
  todos : gmap (string * string) (list (string * JsVal));
  outage : option JsError
}.

Definition ResourceNotFoundException : JsError :=
  mkError "ResourceNotFoundException" "Requested resource not found".
Definition ValidationException (msg : string) : JsError :=
  mkError "ValidationException" msg.
(** What the document client throws on a value it cannot marshal. *)
Definition MarshallError : JsError :=
  mkError "Error"
    "Pass options.removeUndefinedValues=true to remove undefined values from map/array/set.".

(** [Number.MAX_SAFE_INTEGER] *)
Definition MAX_SAFE_INTEGER : Z := 9007199254740991.

(** The values the document client can marshal: no [undefined] at any
    depth, and no number beyond the safe integers. *)
Fixpoint marshallable (v : JsVal) : bool :=
  match v with
  | JUndefined => false
  | JNumber n => (- MAX_SAFE_INTEGER <=? n) && (n <=? MAX_SAFE_INTEGER)
  | JArray xs => forallb marshallable xs
  | JObject props => forallb (fun p => marshallable (snd p)) props
  | _ => true
  end.

(** The document client marshals the attributes of [Item], [Key] and
    [ExpressionAttributeValues] one by one: an attribute that is
    [undefined] is left out, every other one has to be marshallable.
    [None] stands for a throw. *)
Definition marshall_values (v : JsVal) : option JsVal :=
  match v with
  | JObject props =>
      let kept := List.filter (fun p => is_defined (snd p)) props in
      if forallb (fun p => marshallable (snd p)) kept then Some (JObject kept) else None
  | _ => Some v
  end.

(** [{...input, k: v}] *)
Definition with_field (k : string) (v : JsVal) (input : JsVal) : JsVal :=
  match input with
  | JObject props => JObject (set_prop k v props)
  | _ => input
  end.

(** The wire form of a value: [{S: ...}], [{N: ...}], [{M: ...}], ... *)
Fixpoint marshall (v : JsVal) : JsVal :=
  match v with
  | JUndefined => JUndefined
  | JNull => JObject [("NULL", JBool true)]
  | JBool b => JObject [("BOOL", JBool b)]
  | JNumber n => JObject [("N", JString (pretty n))]
  | JString s => JObject [("S", JString s)]
  | JArray xs => JObject [("L", JArray (map marshall xs))]
  | JObject props =>
      JObject [("M", JObject (map (fun p => (fst p, marshall (snd p))) props))]
  end.

(** The primary key in a property list: both key attributes must be
    non-empty strings. *)
Definition key_of (props : list (string * JsVal)) : option (string * string) :=
  match assoc "userID" props, assoc "taskID" props with
  | JString u, JString t =>
      if String.eqb u "" || String.eqb t "" then None else Some (u, t)
  | _, _ => None
  end.

(** The same for a key in wire form, [{userID: {S: u}, taskID: {S: t}}]. *)
Definition wire_key_of (props : list (string * JsVal)) : option (string * string) :=
  match get_opt (assoc "userID" props) "S", get_opt (assoc "taskID" props) "S" with
  | JString u, JString t =>
      if String.eqb u "" || String.eqb t "" then None else Some (u, t)
  | _, _ => None
  end.

(** [s.split(sep)] for a non-empty [sep]; [cur] is the piece being read
    and [skip] the number of characters of a separator still to pass. *)
Fixpoint split_from (sep s cur : string) (skip : nat) : list string :=
  match s with
  | EmptyString => [cur]
  | String c rest =>
      match skip with
      | S n => split_from sep rest cur n
      | O =>
          if String.prefix sep s
          then cur :: split_from sep rest "" (String.length sep - 1)
          else split_from sep rest (cur ++ String c "") 0
      end
  end.

Definition split (sep s : string) : list string := split_from sep s "" 0.

(** An expression [lhs = rhs]. *)
Definition parse_equation (s : string) : option (string * string) :=
  match split " = " s with
  | [l; r] => Some (l, r)
  | _ => None
  end.

(** An update expression [SET lhs = rhs, lhs = rhs, ...]. *)
Definition parse_set (s : string) : option (list (string * string)) :=
  if String.prefix "SET " s
  then mapM parse_equation (split ", " (String.substring 4 (String.length s - 4) s))
  else None.

(** An attribute name, written out or through a [#placeholder]. *)
Definition resolve_name (names : JsVal) (n : string) : option string :=
  if String.prefix "#" n
  then match get_opt names n with
       | JString a => Some a
       | _ => None
       end
  else Some n.

(** An attribute value, through its [:placeholder]. *)
Definition resolve_value (values : JsVal) (v : string) : option JsVal :=
  match get_opt values v with
  | JUndefined => None
  | x => Some x
  end.

Definition resolve_action (names values : JsVal) (a : string * string)
  : option (string * JsVal) :=
  match resolve_name names (fst a), resolve_value values (snd a) with
  | Some n, Some v =>
      if String.eqb n "userID" || String.eqb n "taskID" then None else Some (n, v)
  | _, _ => None
  end.

(** [SET] the attributes one after the other. *)
Definition apply_set (actions : list (string * JsVal)) (item : list (string * JsVal))
  : list (string * JsVal) :=
  fold_left (fun it a => set_prop (fst a) (snd a) it) actions item.

Definition same_table (name : JsVal) : bool :=
  match name with
  | JString n => String.eqb n "todos"
  | _ => false
  end.

(** [PutItem]: write the item under its key, replacing what was there. *)
Definition PutItem (input : JsVal) (d : Dynamo) : Outcome JsVal * Dynamo :=
  if negb (same_table (get_opt input "TableName")) then
    (Throw ResourceNotFoundException, d)
  else
    match get_opt input "Item" with
    | JObject item =>
        match key_of item with
        | Some k => (Return (JObject []), mkDynamo (<[k := item]> (todos d)) (outage d))
        | None =>
            (Throw (ValidationException
                      "One or more parameter values were invalid: Missing or mistyped key"), d)
        end
    | _ => (Throw (ValidationException "Item is required"), d)
    end.

(** The sort key orders a partition. *)
Definition by_taskID (a b : (string * string) * list (string * JsVal)) : Prop :=
  Is_true (String.leb (snd (fst a)) (snd (fst b))).

#[local] Instance by_taskID_dec a b : Decision (by_taskID a b).
Proof. unfold by_taskID. apply _. Defined.

(** The rows of partition [u], by ascending [taskID], and their items. *)
Definition partition_rows (u : string) (d : Dynamo)
  : list ((string * string) * list (string * JsVal)) :=
  merge_sort by_taskID (filter (fun kv => fst (fst kv) = u) (map_to_list (todos d))).

Definition partition (u : string) (d : Dynamo) : list (list (string * JsVal)) :=
  map snd (partition_rows u d).

(** The size of a value and of an item, by the size rules of the service:
    a string counts its bytes, a number about one byte per two digits and
    one more, a boolean or [null] one byte, a list or map three bytes and
    one more per element; an attribute counts its name and its value. *)
Fixpoint value_bytes (v : JsVal) : N :=
  match v with
  | JUndefined => 0
  | JNull | JBool _ => 1
  | JNumber n => N.of_nat (Nat.div (String.length (pretty (Z.abs n)) + 1) 2) + 1
  | JString s => N.of_nat (String.length s)
  | JArray xs => fold_right (fun x acc => 1 + value_bytes x + acc) 3 xs
  | JObject props =>
      fold_right (fun p acc => 1 + N.of_nat (String.length (fst p))
                               + value_bytes (snd p) + acc) 3 props
  end%N.

Definition item_bytes (item : list (string * JsVal)) : N :=
  fold_right (fun p acc => N.of_nat (String.length (fst p)) + value_bytes (snd p) + acc)%N
             0%N item.

(** One [Query] reads at most 1 MB. *)
Definition page_limit : N := 1048576.

(** The rows one [Query] returns: it reads on while what it has read is
    below [room], and stops after the row that reaches it. *)
Fixpoint first_page (room : N) (rows : list ((string * string) * list (string * JsVal)))
  : list ((string * string) * list (string * JsVal)) :=
  match rows with
  | [] => []
  | row :: rest =>
      if (item_bytes (snd row) <? room)%N
      then row :: first_page (room - item_bytes (snd row)) rest
      else [row]
  end.

(** Whether that read ends at the limit rather than at the end of the
    rows. *)
Fixpoint limit_reached (room : N) (rows : list ((string * string) * list (string * JsVal)))
  : bool :=
  match rows with
  | [] => false
  | row :: rest =>
      if (item_bytes (snd row) <? room)%N
      then limit_reached (room - item_bytes (snd row)) rest
      else true
  end.

(** The key of the last row of a page. *)
Definition last_key (page : list ((string * string) * list (string * JsVal))) : JsVal :=
  match last page with
  | Some (u, t, _) => JObject [("userID", JString u); ("taskID", JString t)]
  | None => JUndefined
  end.

(** The answer to a query for partition [u]: the items of the first page,
    and [LastEvaluatedKey] when the read ended at the limit (there may or
    may not be rows left then). *)
Definition query_page (u : string) (d : Dynamo) : list (list (string * JsVal)) :=
  map snd (first_page page_limit (partition_rows u d)).

Definition query_output (u : string) (d : Dynamo) : JsVal :=
  JObject
    ([("Items", JArray (map JObject (query_page u d)));
      ("Count", JNumber (Z.of_nat (length (query_page u d))))]
     ++ (if limit_reached page_limit (partition_rows u d)
         then [("LastEvaluatedKey",
                last_key (first_page page_limit (partition_rows u d)))]
         else []))%list.

(** [Query] by a key condition [userID = :placeholder]. *)
Definition Query (input : JsVal) (d : Dynamo) : Outcome JsVal * Dynamo :=
  if negb (same_table (get_opt input "TableName")) then
    (Throw ResourceNotFoundException, d)
  else
    match get_opt input "KeyConditionExpression" with
    | JString cond =>
        match parse_equation cond with
        | Some (attr, ph) =>
            if String.eqb attr "userID" then
              match get_opt (get_opt input "ExpressionAttributeValues") ph with
              | JString u => (Return (query_output u d), d)
              | _ =>
                  (Throw (ValidationException
                            "One or more parameter values were invalid: Condition parameter type does not match schema type"), d)
              end
            else
              (Throw (ValidationException "Query condition missed key schema element: userID"), d)
        | None => (Throw (ValidationException "Invalid KeyConditionExpression"), d)
        end
    | _ => (Throw (ValidationException "KeyConditionExpression is required"), d)
    end.

(** [UpdateItem] with a [SET] expression and no condition: the attributes
    are set on the item under the key, or on a new item made of the key
    alone when there is none.  With [ReturnValues: "ALL_NEW"] the output
    carries the item as it is after the update. *)
Definition UpdateItem (input : JsVal) (d : Dynamo) : Outcome JsVal * Dynamo :=
  if negb (same_table (get_opt input "TableName")) then
    (Throw ResourceNotFoundException, d)
  else
    match get_opt input "Key" with
    | JObject key =>
        match key_of key with
        | Some (u, t) =>
            match get_opt input "UpdateExpression" with
            | JString expr =>
                match parse_set expr with
                | Some equations =>
                    match mapM (resolve_action
                                  (get_opt input "ExpressionAttributeNames")
                                  (get_opt input "ExpressionAttributeValues")) equations with
                    | Some actions =>
                        let old := default [("userID", JString u); ("taskID", JString t)]
                                           (todos d !! (u, t)) in
                        let new := apply_set actions old in
                        (Return (match get_opt input "ReturnValues" with
                                 | JString "ALL_NEW" => JObject [("Attributes", JObject new)]
                                 | _ => JObject []
                                 end),
                         mkDynamo (<[(u, t) := new]> (todos d)) (outage d))
                    | None =>
                        (Throw (ValidationException "Invalid UpdateExpression: unresolved name or value"), d)
                    end
                | None => (Throw (ValidationException "Invalid UpdateExpression: Syntax error"), d)
                end
            | _ => (Throw (ValidationException "UpdateExpression is required"), d)
            end
        | None => (Throw (ValidationException "The provided key element does not match the schema"), d)
        end
    | _ => (Throw (ValidationException "Key is required"), d)
    end.

(** [DeleteItem] with the key in wire form.  With
    [ReturnValues: "ALL_OLD"] the output carries the item that was
    deleted, in wire form; there is no [Attributes] when nothing was
    there. *)
Definition DeleteItem (input : JsVal) (d : Dynamo) : Outcome JsVal * Dynamo :=
  if negb (same_table (get_opt input "TableName")) then
    (Throw ResourceNotFoundException, d)
  else
    match get_opt input "Key" with
    | JObject key =>
        match wire_key_of key with
        | Some k =>
            (Return (match todos d !! k, get_opt input "ReturnValues" with
                     | Some item, JString "ALL_OLD" =>
                         JObject [("Attributes",
                                   JObject (map (fun p => (fst p, marshall (snd p))) item))]
                     | _, _ => JObject []
                     end),
             mkDynamo (delete k (todos d)) (outage d))
        | None => (Throw (ValidationException "The provided key element does not match the schema"), d)
        end
    | _ => (Throw (ValidationException "Key is required"), d)
    end.

(** A request through the document client ([PutCommand], [QueryCommand],
    [UpdateCommand]) is marshalled on the client side first; then the
    service is reached, or not. *)
Definition dynamo_send (cmd : Command) (d : Dynamo) : Outcome JsVal * Dynamo :=
  let at_service (op : JsVal -> Dynamo -> Outcome JsVal * Dynamo) (input : JsVal) :=
    match outage d with
    | Some e => (Throw e, d)
    | None => op input d
    end in
  match cmd with
  | PutCommand input =>
      match marshall_values (get_opt input "Item") with
      | Some item => at_service PutItem (with_field "Item" item input)
      | None => (Throw MarshallError, d)
      end
  | QueryCommand input =>
      match marshall_values (get_opt input "ExpressionAttributeValues") with
      | Some values => at_service Query (with_field "ExpressionAttributeValues" values input)
      | None => (Throw MarshallError, d)
      end
  | UpdateCommand input =>
      match marshall_values (get_opt input "Key"),
            marshall_values (get_opt input "ExpressionAttributeValues") with
      | Some key, Some values =>
          at_service UpdateItem
            (with_field "Key" key (with_field "ExpressionAttributeValues" values input))
      | _, _ => (Throw MarshallError, d)
      end
  | DeleteItemCommand input => at_service DeleteItem input
  end.

Definition client : StoreClient := {| Db := Dynamo; send := dynamo_send |}.

End DynamoDB.

(** ** The operations of the API and what the properties speak about *)

Inductive Operation : Type := Create | ListByOwner | UpdatePartial | Delete.

Definition run `{StoreClient} `{Json} (op : Operation)
  : JsVal -> World -> Response * World :=
  match op with
  | Create => createTodo.handler
  | ListByOwner => getTodos.handler
  | UpdatePartial => updateTodo.handler
  | Delete => deleteTodo.handler
  end.

(** The owner as [getTodos] and [updateTodo] read it from the query
    string: [q?.userId || q?.userID]. *)
Definition owner_of_query (q : JsVal) : JsVal :=
  js_or (get_opt q "userId") (get_opt q "userID").

(** The fields a partial update may set, and those of them a request body
    supplies. *)
Definition updatable : list string := ["title"; "description"; "status"].

Definition supplied (body : JsVal) : list string :=
  List.filter (fun k => is_defined (get_opt body k)) updatable.

(** The update request for the supplied fields of [body], written as a
    comprehension over [supplied body]: one [#k = :k] clause, one name and
    one value per supplied field. *)
Definition update_params (userId taskID body : JsVal) : JsVal :=
  JObject [("TableName", JString "todos");
           ("Key", JObject [("userID", userId); ("taskID", taskID)]);
           ("UpdateExpression",
            JString ("SET " ++ join ", " (map (fun k => "#" ++ k ++ " = :" ++ k)
                                              (supplied body))));
           ("ExpressionAttributeValues",
            JObject (map (fun k => (":" ++ k, get_opt body k)) (supplied body)));
           ("ExpressionAttributeNames",
            JObject (map (fun k => ("#" ++ k, JString k)) (supplied body)));
           ("ReturnValues", JString "ALL_NEW")].

(** The value the body of an update request stands for: what
    [JSON.parse] makes of a text, and any other value as it is. *)
Definition decodes_to `{Json} (raw payload : JsVal) : Prop :=
  match raw with
  | JString text => JSON_parse text = Return payload
  | _ => raw = payload
  end.


(** The fixed body of the 500 response of [getTodos] and [updateTodo]. *)
Definition generic_500 : Response :=
  mkResponse 500 None
    (JSON_stringify (JObject [("message", JString "Internal server error")])).

(** The 500 response of each handler to an error [e]. *)
Definition failure_response (op : Operation) (e : JsError) : Response :=
  match op with
  | Create =>
      mkResponse 500 None
        (JSON_stringify
           (JObject [("message", JString ("Internal server error" ++ error_toString e))]))
  | ListByOwner | UpdatePartial => generic_500
  | Delete =>
      mkResponse 500 None
        (JSON_stringify
           (JObject [("message", JString "Internal server error while deleting todo");
                     ("error", JString (message e))]))
  end.

(** Whether the body of a response contains the text [s]. *)
Definition body_includes (r : Response) (s : string) : bool :=
  match body r with
  | JString b => includes b s
  | _ => false
  end.

(** ISO-8601 timestamps of equal length order as their texts do. *)
Definition strictly_later (a b : JsVal) : bool :=
  match a, b with
  | JString x, JString y => String.ltb y x
  | _, _ => false
  end.

(** A [JSON.parse] for running the handlers on one concrete request: it
    knows the text [JSON.stringify] prints for [v] and rejects every other
    text. *)
Definition parse_only (v : JsVal) : Json :=
  {| JSON_parse s :=
       match stringify v with
       | Some text =>
           if String.eqb s text then Return v
           else Throw (SyntaxError "Unexpected token in JSON")
       | None => Throw (SyntaxError "Unexpected token in JSON")
       end |}.

(** ** Responses and commands by name *)

Section Vocabulary.
Context `{StoreClient}.

(** A 400 response with a message. *)
Definition bad_request (msg : string) : Response :=
  mkResponse 400 None (JSON_stringify (JObject [("message", JString msg)])).

(** The record [createTodo] builds from a parsed body in world [w]: the
    identifier is the next answer of [crypto.randomUUID()], the two
    timestamps are the next two readings of the clock. *)
Definition new_item (body : JsVal) (w : World) : JsVal :=
  JObject [("userID", get_opt body "userID");
           ("taskID", JString (randomUUID w (uuids_drawn w)));
           ("title", get_opt body "title");
           ("description", get_opt body "description");
           ("status", JString "pending");
           ("createdAt", JString (now w (clock_reads w)));
           ("updatedAt", JString (now w (S (clock_reads w))))].

Definition put_command (item : JsVal) : Command :=
  PutCommand (JObject [("TableName", JString "todos"); ("Item", item)]).

Definition query_command (userId : JsVal) : Command :=
  QueryCommand (JObject [("TableName", JString "todos");
                         ("KeyConditionExpression", JString "userID = :uid");
                         ("ExpressionAttributeValues", JObject [(":uid", userId)])]).

Definition update_command (userId taskID body : JsVal) : Command :=
  UpdateCommand (update_params userId taskID body).

Definition delete_command (tableName userID taskID : JsVal) : Command :=
  DeleteItemCommand
    (JObject [("TableName", tableName);
              ("Key", JObject [("userID", JObject [("S", userID)]);
                               ("taskID", JObject [("S", taskID)])]);
              ("ReturnValues", JString "ALL_OLD")]).

Definition not_found (userID taskID : JsVal) : Response :=
  mkResponse 404 None
    (JSON_stringify
       (JObject [("message",
                  JString ("Todo with userID '" ++ text_of userID
                           ++ "' and taskID '" ++ text_of taskID ++ "' not found"))])).

Definition deleted (userID taskID : JsVal) : Response :=
  mkResponse 200 None
    (JSON_stringify
       (JObject [("message",
                  JString ("Todo '" ++ text_of taskID
                           ++ "' deleted successfully for user '"
                           ++ text_of userID ++ "'"))])).

(** The answer of [deleteTodo] once the store has answered: the 404 or
    the 200 response, or the 500 response when an identifier has no text. *)
Definition delete_answer (found : bool) (userID taskID : JsVal) : Response :=
  if found then
    match to_string taskID with
    | Throw e => failure_response Delete e
    | Return _ =>
        match to_string userID with
        | Throw e => failure_response Delete e
        | Return _ => deleted userID taskID
        end
    end
  else
    match to_string userID with
    | Throw e => failure_response Delete e
    | Return _ =>
        match to_string taskID with
        | Throw e => failure_response Delete e
        | Return _ => not_found userID taskID
        end
    end.

End Vocabulary.

(** An event as the API Gateway mapping templates build it. *)
Definition event_of (path query body : JsVal) : JsVal :=
  JObject [("pathParameters", path); ("queryStringParameters", query); ("body", body)].
(** An event that is not an object: reading any property of [undefined]
    or [null] throws, and a string, number, boolean or array has none of
    the properties a handler reads. *)
Definition props_of (event : JsVal) : list (string * JsVal) :=
  match event with
  | JObject props => props
  | _ => []
  end.

(** What the table holds of a record handed to [PutCommand]: the
    attributes that are not [undefined]. *)
Definition stored_attributes (item : JsVal) : list (string * JsVal) :=
  List.filter (fun p => is_defined (snd p)) (props_of item).

(** ** A table and requests to run the handlers on *)
Module Example.

Definition buy_milk : list (string * JsVal) :=
  [("userID", JString "u1"); ("taskID", JString "t1");
   ("title", JString "Buy milk"); ("description", JString "2 litres");
   ("status", JString "pending");
   ("createdAt", JString "2024-01-01T00:00:00.000Z");
   ("updatedAt", JString "2024-01-01T00:00:00.000Z")].

Definition one_task : DynamoDB.Dynamo :=
  DynamoDB.mkDynamo {[ ("u1", "t1") := buy_milk ]} None.

Definition no_task : DynamoDB.Dynamo := DynamoDB.mkDynamo ∅ None.

(** The service rejects every request. *)
Definition throttled : JsError :=
  mkError "ProvisionedThroughputExceededException"
          "The level of configured provisioned throughput for the table was exceeded".

Definition out_of_service : DynamoDB.Dynamo :=
  DynamoDB.mkDynamo {[ ("u1", "t1") := buy_milk ]} (Some throttled).

(** The clock passes a full second between its first two readings. *)
Definition clock (n : nat) : string :=
  match n with
  | O => "2024-01-02T10:00:00.999Z"
  | _ => "2024-01-02T10:00:01.000Z"
  end.

Definition uuid (n : nat) : string :=
  match n with
  | O => "3f2b8c1e-7a64-4d0b-9c55-0d6a1e8f2b10"
  | _ => "9d1c4b7e-2f3a-4e6b-8a90-5c2e7f1d3a44"
  end.

Definition world (d : DynamoDB.Dynamo) : @World DynamoDB.client :=
  mkWorld (H := DynamoDB.client) d [] (JString "todos") uuid 0 clock 0.

(** [PUT /todos/t1?userId=u1] with body [{status: "completed"}]. *)
Definition complete_t1 : JsVal :=
  event_of (JObject [("taskID", JString "t1")])
           (JObject [("userId", JString "u1")])
           (JObject [("status", JString "completed")]).

(** The same for a task [t9] that is not in the table. *)
Definition complete_t9 : JsVal :=
  event_of (JObject [("taskID", JString "t9")])
           (JObject [("userId", JString "u1")])
           (JObject [("status", JString "completed")]).

(** [PUT /todos/t1?userId=u1] without a body. *)
Definition update_no_body : JsVal :=
  JObject [("pathParameters", JObject [("taskID", JString "t1")]);
           ("queryStringParameters", JObject [("userId", JString "u1")])].

(** [DELETE /todos/u1/t1], and the same with the owner spelled [userId]. *)
Definition delete_t1 : JsVal :=
  JObject [("pathParameters", JObject [("userID", JString "u1"); ("taskID", JString "t1")])].

Definition delete_t1_userId : JsVal :=
  JObject [("pathParameters", JObject [("userId", JString "u1"); ("taskID", JString "t1")])].

(** [GET /todos?userId=u1] and [GET /todos?userID=u1]. *)
Definition list_u1 : JsVal :=
  JObject [("queryStringParameters", JObject [("userId", JString "u1")])].

Definition list_u1_userID : JsVal :=
  JObject [("queryStringParameters", JObject [("userID", JString "u1")])].

(** [POST /todo] with a full body, and with a body without [title]. *)
Definition new_task : JsVal :=
  JObject [("userID", JString "u1"); ("title", JString "Buy milk");
           ("description", JString "2 litres")].

Definition create_task : JsVal := JObject [("body", JSON_stringify new_task)].



End Example.

(** ** What a handler may answer and send *)

(** The status codes each handler has a [return] for. *)
Definition status_codes (op : Operation) : list Z :=
  match op with
  | Create | ListByOwner | UpdatePartial => [200; 400; 500]
  | Delete => [200; 400; 404; 500]
  end.

(** The command class each handler instantiates. *)
Definition command_of (op : Operation) : JsVal -> Command :=
  match op with
  | Create => PutCommand
  | ListByOwner => QueryCommand
  | UpdatePartial => UpdateCommand
  | Delete => DeleteItemCommand
  end.

(** A [JSON.parse] that knows the texts of several documents. *)
Definition parse_among (vs : list JsVal) : Json :=
  {| JSON_parse s :=
       match List.find (fun v => match stringify v with
                                  | Some text => String.eqb s text
                                  | None => false
                                  end) vs with
       | Some v => Return v
       | None => Throw (SyntaxError "Unexpected token in JSON")
       end |}.

(** More requests for the example table. *)
Module Example2.

(** A body for [POST /todo] that also carries fields the server sets. *)
Definition forged_task : JsVal :=
  JObject [("userID", JString "u1"); ("title", JString "Buy milk");
           ("description", JString "2 litres");
           ("taskID", JString "t1"); ("status", JString "completed")].

Definition create_forged : JsVal := JObject [("body", JSON_stringify forged_task)].

(** [event.body] handed over as an object. *)
Definition create_from_object : JsVal := JObject [("body", Example.new_task)].

Definition create_from_other_object : JsVal := JObject [("body", forged_task)].

(** A body that is not JSON. *)
Definition create_garbage : JsVal := JObject [("body", JString "{userID: u1")].

(** A query string with both spellings of the owner. *)
Definition list_both : JsVal :=
  JObject [("queryStringParameters",
            JObject [("userId", JString "u1"); ("userID", JString "u2")])].

(** [DELETE] of the record that the first create of [Example.world] makes. *)
Definition delete_created : JsVal :=
  JObject [("pathParameters",
            JObject [("userID", JString "u1"); ("taskID", JString (Example.uuid 0))])].

(** [PUT] on the record that the first create of [Example.world] makes. *)
Definition complete_created : JsVal :=
  event_of (JObject [("taskID", JString (Example.uuid 0))])
           (JObject [("userId", JString "u1")])
           (JObject [("status", JString "completed")]).

(** [PUT /todos/t1?userId=u1] with the body as a text, one field of it
    unknown to the handler. *)
Definition patch_with_priority : JsVal :=
  JObject [("status", JString "completed"); ("priority", JString "high")].

Definition complete_t1_text : JsVal :=
  event_of (JObject [("taskID", JString "t1")])
           (JObject [("userId", JString "u1")])
           (JSON_stringify patch_with_priority).

(** The same for a task [t9] that is not in the table, and for the record
    that the first create of [Example.world] makes. *)
Definition complete_t9_text : JsVal :=
  event_of (JObject [("taskID", JString "t9")])
           (JObject [("userId", JString "u1")])
           (JSON_stringify patch_with_priority).

Definition complete_created_text : JsVal :=
  event_of (JObject [("taskID", JString (Example.uuid 0))])
           (JObject [("userId", JString "u1")])
           (JSON_stringify patch_with_priority).

(** [PUT /todos/t1?userId=u1] with the body text [null]. *)
Definition update_null_text : JsVal :=
  event_of (JObject [("taskID", JString "t1")])
           (JObject [("userId", JString "u1")])
           (JString "null").


End Example2.

(** A partition that does not fit one page. *)
Module Example3.

(** [s], doubled [n] times. *)
Fixpoint doubled (n : nat) (s : string) : string :=
  match n with
  | O => s
  | S m => doubled m (s ++ s)
  end.

(** A description of 384 KB, below the 400 KB an item may have. *)
Definition long_text : string := doubled 17 "abc".

Definition notes (t description : string) : list (string * JsVal) :=
  [("userID", JString "u1"); ("taskID", JString t);
   ("title", JString "Notes"); ("description", JString description);
   ("status", JString "pending");
   ("createdAt", JString "2024-01-01T00:00:00.000Z");
   ("updatedAt", JString "2024-01-01T00:00:00.000Z")].

(** Four records of owner [u1] with the same description. *)
Definition four_notes (description : string) : DynamoDB.Dynamo :=
  DynamoDB.mkDynamo
    (<[("u1", "t1") := notes "t1" description]>
       (<[("u1", "t2") := notes "t2" description]>
          (<[("u1", "t3") := notes "t3" description]>
             {[ ("u1", "t4") := notes "t4" description ]})))
    None.

(** Four records of 384 KB: a partition of 1.5 MB. *)
Definition four_long_notes : DynamoDB.Dynamo := four_notes long_text.

End Example3.

(** * Properties *)

Arguments JSON_stringify : simpl never.
Arguments error_toString : simpl never.
Arguments to_string : simpl never.
Arguments supplied : simpl never.

(** ** Reading properties *)

Lemma get_not_nullish o k :
  o <> JUndefined -> o <> JNull -> get o k = Return (get_opt o k).
Proof. by destruct o. Qed.

Lemma nullish_false o : o <> JUndefined -> o <> JNull -> nullish o = false.
Proof. by destruct o. Qed.

Lemma get_truthy o k : truthy o = true -> get o k = Return (get_opt o k).
Proof. by destruct o. Qed.

(** ** The handlers, branch by branch *)

Section Branches.
Context `{StoreClient} `{Json}.

Lemma createTodo_cases props w :
  createTodo.handler (JObject props) w =
  match to_string (assoc "body" props) with
  | Throw e => (failure_response Create e, w)
  | Return text =>
      match JSON_parse text with
      | Throw e => (failure_response Create e, w)
      | Return body =>
          if negb (truthy body) then (bad_request "Request body is missing", w)
          else if negb (truthy (get_opt body "userID"))
                  || negb (truthy (get_opt body "title"))
          then (bad_request "Missing required fields", w)
          else
            let item := new_item body w in
            match send (put_command item) (store w) with
            | (Return _, d) =>
                (mkResponse 200 None (JSON_stringify item),
                 called (put_command item) d (ticked (ticked (drawn w))))
            | (Throw e, d) =>
                (failure_response Create e,
                 called (put_command item) d (ticked (ticked (drawn w))))
            end
      end
  end.
Proof.
  unfold createTodo.handler, try_catch, bind, lift, ret. cbn.
  destruct (to_string _) as [text|e]; [|done].
  destruct (JSON_parse _) as [body|e]; [|done].
  destruct (truthy body) eqn:Hb; cbn; [|done].
  rewrite !(get_truthy body) by done.
  destruct (negb (truthy (get_opt body "userID")) || negb (truthy (get_opt body "title"))); [done|].
  unfold client_send, crypto_randomUUID, Date_toISOString. cbn.
  unfold new_item, put_command.
  destruct (send _ _) as [[r|e] d]; done.
Qed.

Lemma getTodos_cases props w :
  getTodos.handler (JObject props) w =
  let userId := owner_of_query (assoc "queryStringParameters" props) in
  if negb (truthy userId) then (bad_request "Missing userId in query parameters", w)
  else
    match send (query_command userId) (store w) with
    | (Return result, d) =>
        match get result "Items" with
        | Return Items =>
            (mkResponse 200 json_headers (JSON_stringify Items),
             called (query_command userId) d w)
        | Throw e => (generic_500, called (query_command userId) d w)
        end
    | (Throw e, d) => (generic_500, called (query_command userId) d w)
    end.
Proof.
  unfold getTodos.handler, try_catch, bind, lift, ret. cbn.
  fold (owner_of_query (assoc "queryStringParameters" props)).
  destruct (truthy (owner_of_query _)); cbn; [|done].
  unfold client_send, query_command.
  destruct (send _ _) as [[r|e] d]; [|done].
  by destruct (get r "Items").
Qed.

(** The loop of [updateTodo] collects the supplied fields, in the order of
    [updatable]. *)
Lemma for_keys_supplied body :
  body <> JUndefined -> body <> JNull ->
  updateTodo.for_keys updatable body (updateTodo.mkAcc [] [] []) =
  Return (updateTodo.mkAcc
            (map (fun k => "#" ++ k ++ " = :" ++ k) (supplied body))
            (map (fun k => (":" ++ k, get_opt body k)) (supplied body))
            (map (fun k => ("#" ++ k, JString k)) (supplied body))).
Proof.
  intros Hu Hn. unfold supplied, updatable. cbn [updateTodo.for_keys List.filter].
  rewrite !(get_not_nullish body) by done.
  destruct (is_defined (get_opt body "title"));
    destruct (is_defined (get_opt body "description"));
    destruct (is_defined (get_opt body "status")); reflexivity.
Qed.

Lemma for_keys_nullish body acc :
  body = JUndefined \/ body = JNull ->
  exists e, updateTodo.for_keys updatable body acc = Throw e.
Proof. intros [-> | ->]; cbn; eauto. Qed.

Lemma updateTodo_cases props w :
  updateTodo.handler (JObject props) w =
  let taskID := get_opt (assoc "pathParameters" props) "taskID" in
  let userId := owner_of_query (assoc "queryStringParameters" props) in
  if negb (truthy taskID) || negb (truthy userId)
  then (bad_request "Missing taskID or userId", w)
  else
    match updateTodo.body_of (assoc "body" props) with
    | Throw e => (generic_500, w)
    | Return body =>
        if nullish body then (generic_500, w) else
        match supplied body with
        | [] => (bad_request "No valid fields to update", w)
        | _ :: _ =>
            let cmd := update_command userId taskID body in
            match send cmd (store w) with
            | (Return result, d) =>
                match get result "Attributes" with
                | Return Attributes =>
                    (mkResponse 200 json_headers (JSON_stringify Attributes),
                     called cmd d w)
                | Throw e => (generic_500, called cmd d w)
                end
            | (Throw e, d) => (generic_500, called cmd d w)
            end
        end
    end.
Proof.
  unfold updateTodo.handler, try_catch, bind, lift, ret.
  cbn -[updateTodo.for_keys nullish].
  fold (owner_of_query (assoc "queryStringParameters" props)).
  destruct (negb _ || negb _); [done|].
  destruct (updateTodo.body_of _) as [body|e]; [|done].
  fold updatable.
  assert (body = JUndefined \/ body = JNull \/ (body <> JUndefined /\ body <> JNull))
    as [-> | [-> | [Hu Hn]]] by (destruct body; naive_solver); [done | done |].
  rewrite (for_keys_supplied body Hu Hn). cbn [updateTodo.updateExpressions
    updateTodo.expressionValues updateTodo.expressionNames].
  rewrite length_map.
  unfold update_command, update_params, client_send.
  rewrite (nullish_false body Hu Hn).
  destruct (supplied body) eqn:Hs; cbn [length Nat.eqb]; [done|].
  destruct (send _ _) as [[r|e] d]; [|done].
  by destruct (get r "Attributes").
Qed.

Lemma deleteTodo_cases props w :
  deleteTodo.handler (JObject props) w =
  let userID := get_opt (assoc "pathParameters" props) "userID" in
  let taskID := get_opt (assoc "pathParameters" props) "taskID" in
  if negb (truthy userID) || negb (truthy taskID)
  then (bad_request "Missing 'userID' or 'taskID' in path parameters", w)
  else
    let cmd := delete_command (TABLE_NAME w) userID taskID in
    match send cmd (store w) with
    | (Return result, d) =>
        match get result "Attributes" with
        | Return Attributes =>
            (delete_answer (truthy Attributes) userID taskID, called cmd d w)
        | Throw e => (failure_response Delete e, called cmd d w)
        end
    | (Throw e, d) => (failure_response Delete e, called cmd d w)
    end.
Proof.
  unfold deleteTodo.handler, try_catch, bind, lift, ret. cbn.
  destruct (negb _ || negb _); [done|].
  unfold client_send, delete_command.
  destruct (send _ _) as [[r|e] d]; [|done].
  destruct (get r "Attributes") as [a|e]; [|done].
  unfold delete_answer, not_found, deleted, text_of.
  destruct (truthy a); cbn [negb];
    destruct (to_string (get_opt (assoc "pathParameters" props) "userID"));
    destruct (to_string (get_opt (assoc "pathParameters" props) "taskID")); done.
Qed.

End Branches.

Section Generic.
Context `{StoreClient} `{Json}.
Local Open Scope list_scope.

Lemma run_nullish op event w :
  event = JUndefined \/ event = JNull ->
  exists e, run op event w = (failure_response op e, w).
Proof.
  intros [-> | ->]; destruct op;
    unfold run, createTodo.handler, getTodos.handler, updateTodo.handler,
      deleteTodo.handler, try_catch, bind, lift, ret, get;
    eexists; reflexivity.
  Unshelve. all: exact (TypeError "").
Qed.

Lemma run_props_of op event w :
  event <> JUndefined -> event <> JNull ->
  run op event w = run op (JObject (props_of event)) w.
Proof.
  intros Hu Hn. destruct event; try done; destruct op;
    unfold run, createTodo.handler, getTodos.handler, updateTodo.handler,
      deleteTodo.handler, get, props_of, assoc; reflexivity.
Qed.

Lemma body_of_decodes raw payload :
  decodes_to raw payload -> updateTodo.body_of raw = Return payload.
Proof. unfold decodes_to. destruct raw; cbn; congruence. Qed.


(** Claim C10.  An update request with a taskID and an owner but without
    a body ([event.body] is [undefined] or [null]) is answered with the
    generic 500 response, not with a 400: reading [body[key]] throws before
    the check for updatable fields, and nothing is sent to the store. *)
Theorem update_without_body_is_500 props w :
  truthy (get_opt (assoc "pathParameters" props) "taskID") = true ->
  truthy (owner_of_query (assoc "queryStringParameters" props)) = true ->
  assoc "body" props = JUndefined \/ assoc "body" props = JNull ->
  updateTodo.handler (JObject props) w = (generic_500, w)
  /\ statusCode (updateTodo.handler (JObject props) w).1 = 500.
Proof.
  intros Ht Hu Hb. rewrite updateTodo_cases. cbn zeta.
  rewrite Ht, Hu. cbn [negb orb].
  destruct Hb as [-> | ->]; done.
Qed.

Lemma no_call_made {A} (l : list A) (c : A) : l <> l ++ [c].
Proof.
  intros Heq. apply (f_equal length) in Heq.
  rewrite length_app in Heq. cbn in Heq. lia.
Qed.

Lemma one_call_made {A} (l : list A) (c c' : A) : l ++ [c] = l ++ [c'] -> c = c'.
Proof. intros Heq. apply app_inv_head in Heq. congruence. Qed.

(** Claim C3, as amended.  When the one store call of a handler is
    rejected with an error [e], the response is the handler's 500
    response: a fixed text for [getTodos] and [updateTodo]; for
    [createTodo] the message [Internal server error] followed by
    [String(e)]; for [deleteTodo] a fixed message and [e.message] in the
    field [error]. *)
Theorem store_failure_gives_500 op event w cmd e :
  sent (run op event w).2 = sent w ++ [cmd] ->
  (send cmd (store w)).1 = Throw e ->
  (run op event w).1 = failure_response op e.
Proof.
  assert (event = JUndefined \/ event = JNull \/ (event <> JUndefined /\ event <> JNull))
    as [Hev | [Hev | [Hu Hn]]] by (destruct event; naive_solver).
  1,2: destruct (run_nullish op event w) as [e' ->]; [tauto|];
       intros Hs; by apply no_call_made in Hs.
  rewrite run_props_of by done. generalize (props_of event) as props. intros props.
  destruct op; cbn [run].
  - rewrite createTodo_cases.
    destruct (to_string _) as [text|e']; [|by intros ?%no_call_made].
    destruct (JSON_parse _) as [body|e']; [|by intros ?%no_call_made].
    destruct (negb (truthy body)); [by intros ?%no_call_made|].
    destruct (negb _ || negb _); [by intros ?%no_call_made|]. cbn zeta.
    destruct (send _ _) as [[r|e'] d] eqn:Hsend; cbn;
      intros <-%one_call_made; rewrite Hsend; cbn; congruence.
  - rewrite getTodos_cases. cbn zeta.
    destruct (negb _); [by intros ?%no_call_made|].
    destruct (send _ _) as [[r|e'] d] eqn:Hsend;
      [destruct (get r "Items")|]; cbn;
      intros <-%one_call_made; rewrite Hsend; cbn; congruence.
  - rewrite updateTodo_cases. cbn zeta.
    destruct (negb _ || negb _); [by intros ?%no_call_made|].
    destruct (updateTodo.body_of _) as [body|e']; [|by intros ?%no_call_made].
    destruct (nullish body); [by intros ?%no_call_made|].
    destruct (supplied _); [by intros ?%no_call_made|].
    destruct (send _ _) as [[r|e'] d] eqn:Hsend;
      [destruct (get r "Attributes")|]; cbn;
      intros <-%one_call_made; rewrite Hsend; cbn; congruence.
  - rewrite deleteTodo_cases. cbn zeta.
    destruct (negb _ || negb _); [by intros ?%no_call_made|].
    destruct (send _ _) as [[r|e'] d] eqn:Hsend;
      [destruct (get r "Attributes")|]; cbn;
      intros <-%one_call_made; rewrite Hsend; cbn; congruence.
Qed.

Lemma supplied_agree body body' :
  (forall k, k ∈ updatable -> get_opt body' k = get_opt body k) ->
  supplied body' = supplied body.
Proof.
  intros Hk. unfold supplied, updatable in *. cbn [List.filter].
  rewrite !Hk by set_solver. done.
Qed.

Lemma update_params_agree userId taskID body body' :
  (forall k, k ∈ updatable -> get_opt body' k = get_opt body k) ->
  update_params userId taskID body' = update_params userId taskID body.
Proof.
  intros Hk. unfold update_params. rewrite (supplied_agree body body' Hk).
  assert (map (fun k => (":" ++ k, get_opt body' k))%string (supplied body)
          = map (fun k => (":" ++ k, get_opt body k))%string (supplied body)) as ->;
    [|done].
  apply map_ext_in. intros k Hin.
  unfold supplied in Hin. apply filter_In in Hin as [Hin _].
  rewrite Hk; [done|]. by apply list_elem_of_In.
Qed.

(** Claim C9, as amended.  For an update request with a taskID and an
    owner whose body stands for a value [payload] other than [undefined]
    and [null] (the value itself, or what [JSON.parse] makes of it when
    it is a text): if [payload] supplies none of [title], [description],
    [status], the answer is the 400 response and the world is untouched;
    otherwise exactly one command is sent, the update of the supplied
    fields of [payload] and of nothing else; and a body that agrees on
    the three fields, whatever else it holds, is handled the same way. *)
Theorem update_sets_supplied_fields_only props w payload :
  truthy (get_opt (assoc "pathParameters" props) "taskID") = true ->
  truthy (owner_of_query (assoc "queryStringParameters" props)) = true ->
  decodes_to (assoc "body" props) payload ->
  payload <> JUndefined -> payload <> JNull ->
  (supplied payload = [] ->
   updateTodo.handler (JObject props) w = (bad_request "No valid fields to update", w))
  /\ (supplied payload <> [] ->
      sent (updateTodo.handler (JObject props) w).2 =
      sent w ++ [update_command (owner_of_query (assoc "queryStringParameters" props))
                                (get_opt (assoc "pathParameters" props) "taskID") payload])
  /\ (forall props' payload',
        assoc "pathParameters" props' = assoc "pathParameters" props ->
        assoc "queryStringParameters" props' = assoc "queryStringParameters" props ->
        decodes_to (assoc "body" props') payload' ->
        payload' <> JUndefined -> payload' <> JNull ->
        (forall k, k ∈ updatable -> get_opt payload' k = get_opt payload k) ->
        updateTodo.handler (JObject props') w = updateTodo.handler (JObject props) w).
Proof.
  intros Ht Ho Hb%body_of_decodes Hu Hn. repeat split.
  - intros Hs. rewrite updateTodo_cases. cbn zeta.
    by rewrite Ht, Ho, Hb, Hs, nullish_false.
  - intros Hs. rewrite updateTodo_cases. cbn zeta.
    rewrite Ht, Ho, Hb, nullish_false by done. cbn [negb orb].
    destruct (supplied payload) eqn:Hs'; [done|].
    destruct (send _ _) as [[r|e'] d]; [destruct (get r "Attributes")|]; done.
  - intros props' payload' Hp Hq Hb'%body_of_decodes Hu' Hn' Hk.
    rewrite !updateTodo_cases. cbn zeta.
    rewrite Hp, Hq, Hb, Hb', Ht, Ho. cbn [negb orb].
    unfold update_command.
    rewrite (update_params_agree _ _ payload payload' Hk), (supplied_agree payload payload' Hk).
    by rewrite !nullish_false.
Qed.

(** Claim C6, as amended.  [getTodos] and [updateTodo] give the same
    result whether the query string carries the owner as [userId] or as
    [userID]; [deleteTodo] reads the owner from the path parameter
    [userID] alone and answers 400 without it. *)
Theorem owner_alias_in_query_string props1 props2 v w :
  assoc "queryStringParameters" props1 = JObject [("userId", v)] ->
  assoc "queryStringParameters" props2 = JObject [("userID", v)] ->
  assoc "pathParameters" props1 = assoc "pathParameters" props2 ->
  assoc "body" props1 = assoc "body" props2 ->
  getTodos.handler (JObject props1) w = getTodos.handler (JObject props2) w
  /\ updateTodo.handler (JObject props1) w = updateTodo.handler (JObject props2) w
  /\ (truthy (get_opt (assoc "pathParameters" props1) "userID") = false ->
      deleteTodo.handler (JObject props1) w
      = (bad_request "Missing 'userID' or 'taskID' in path parameters", w)).
Proof.
  intros H1 H2 Hp Hb.
  assert (Hfalsy : truthy v = false ->
          truthy (owner_of_query (JObject [("userId", v)])) = false
          /\ truthy (owner_of_query (JObject [("userID", v)])) = false).
  { intros Hv. unfold owner_of_query, js_or. cbn. by rewrite Hv. }
  assert (Htruthy : truthy v = true ->
          owner_of_query (JObject [("userId", v)]) = v
          /\ owner_of_query (JObject [("userID", v)]) = v).
  { intros Hv. unfold owner_of_query, js_or. cbn. by rewrite Hv. }
  split; [|split].
  - rewrite !getTodos_cases. cbn zeta. rewrite H1, H2.
    destruct (truthy v) eqn:Hv.
    + destruct (Htruthy eq_refl) as [-> ->]. done.
    + destruct (Hfalsy eq_refl) as [-> ->]. done.
  - rewrite !updateTodo_cases. cbn zeta. rewrite H1, H2, Hp, Hb.
    destruct (truthy v) eqn:Hv.
    + destruct (Htruthy eq_refl) as [-> ->]. done.
    + destruct (Hfalsy eq_refl) as [-> ->]. by rewrite !orb_true_r.
  - intros Hu. rewrite deleteTodo_cases. cbn zeta. by rewrite Hu.
Qed.
End Generic.

Local Open Scope list_scope.

(** ** Property lists *)

Lemma assoc_set_prop_eq k v item : assoc k (set_prop k v item) = v.
Proof.
  induction item as [|[k' v'] item IH]; cbn.
  - by rewrite String.eqb_refl.
  - destruct (String.eqb k k') eqn:E; cbn; rewrite ?String.eqb_refl, ?E; done.
Qed.

Lemma assoc_set_prop_ne a k v item :
  a <> k -> assoc a (set_prop k v item) = assoc a item.
Proof.
  intros Hne. apply String.eqb_neq in Hne.
  induction item as [|[k' v'] item IH]; cbn.
  - by rewrite Hne.
  - destruct (String.eqb k k') eqn:E; cbn.
    + apply String.eqb_eq in E as <-. by rewrite Hne.
    + by rewrite IH.
Qed.

Lemma assoc_apply_set_other a actions item :
  a ∉ map fst actions ->
  assoc a (DynamoDB.apply_set actions item) = assoc a item.
Proof.
  unfold DynamoDB.apply_set. revert item.
  induction actions as [|[k v] actions IH]; intros item Hnot; cbn; [done|].
  cbn in Hnot. apply not_elem_of_cons in Hnot as [Hne Hnot].
  rewrite IH by done. by apply assoc_set_prop_ne.
Qed.

Lemma assoc_apply_set_one a v actions item :
  NoDup (map fst actions) -> (a, v) ∈ actions ->
  assoc a (DynamoDB.apply_set actions item) = v.
Proof.
  unfold DynamoDB.apply_set. revert item.
  induction actions as [|[k x] actions IH]; intros item Hnd Hin; cbn.
  - by apply elem_of_nil in Hin.
  - cbn in Hnd. apply NoDup_cons in Hnd as [Hk Hnd].
    apply elem_of_cons in Hin as [Heq | Hin]; [injection Heq as -> ->|].
    + fold (DynamoDB.apply_set actions (set_prop k x item)).
      rewrite assoc_apply_set_other by done. apply assoc_set_prop_eq.
    + by apply IH.
Qed.

(** ** The table *)

Section Table.
Import DynamoDB.

Lemma elem_of_partition u d item :
  item ∈ partition u d <-> exists t, todos d !! (u, t) = Some item.
Proof.
  unfold partition, partition_rows. rewrite list_elem_of_In, in_map_iff. split.
  - intros ([[u' t] it] & <- & Hin). apply list_elem_of_In in Hin.
    rewrite merge_sort_Permutation in Hin.
    apply list_elem_of_filter in Hin as [Hu Hin]. cbn in Hu. subst u'.
    apply elem_of_map_to_list in Hin. eauto.
  - intros [t Ht]. exists ((u, t), item). split; [done|].
    apply list_elem_of_In. rewrite merge_sort_Permutation.
    apply list_elem_of_filter. split; [done|].
    by apply elem_of_map_to_list.
Qed.

Lemma first_page_prefix room rows : first_page room rows `prefix_of` rows.
Proof.
  revert room. induction rows as [|row rows IH]; intros room; cbn; [done|].
  destruct (item_bytes row.2 <? room)%N.
  - by apply prefix_cons.
  - by exists rows.
Qed.

Lemma first_page_nonempty room rows : rows <> [] -> first_page room rows <> [].
Proof. destruct rows as [|row rows]; cbn; [done|]. by destruct (_ <? _)%N. Qed.

(** One page is a leading part of the partition. *)
Lemma query_page_prefix u d : query_page u d `prefix_of` partition u d.
Proof.
  unfold query_page, partition.
  destruct (first_page_prefix page_limit (partition_rows u d)) as [rest Hrest].
  exists (map snd rest). rewrite Hrest at 1. apply map_app.
Qed.

Lemma limit_reached_nonempty room rows :
  limit_reached room rows = true -> first_page room rows <> [].
Proof. destruct rows as [|row rows]; cbn; [done|]. by destruct (_ <? _)%N. Qed.

Lemma first_page_complete room rows :
  limit_reached room rows = false -> first_page room rows = rows.
Proof.
  revert room. induction rows as [|row rows IH]; intros room; cbn; [done|].
  destruct (item_bytes row.2 <? room)%N; [|done].
  intros Hl. by rewrite IH.
Qed.

(** Without [LastEvaluatedKey] the page is the whole partition. *)
Lemma query_output_complete u d :
  get_opt (query_output u d) "LastEvaluatedKey" = JUndefined ->
  query_page u d = partition u d.
Proof.
  unfold query_output, query_page, partition.
  cbn [get_opt app assoc String.eqb Ascii.eqb Bool.eqb].
  destruct (limit_reached _ _) eqn:Hl.
  - cbn [get_opt app assoc String.eqb Ascii.eqb Bool.eqb]. unfold last_key.
    destruct (last (first_page page_limit (partition_rows u d)))
      as [[[u' t'] item]|] eqn:Hlast; [done|].
    apply last_None in Hlast. by apply limit_reached_nonempty in Hl.
  - intros _. by rewrite first_page_complete.
Qed.

Lemma send_query u d :
  outage d = None ->
  dynamo_send (query_command (JString u)) d = (Return (query_output u d), d).
Proof.
  intros Ho. unfold dynamo_send, query_command.
  cbn [get_opt assoc String.eqb Ascii.eqb Bool.eqb marshall_values List.filter
       is_defined marshallable forallb snd andb with_field set_prop].
  rewrite Ho. reflexivity.
Qed.

Lemma send_delete u t d :
  outage d = None -> u <> "" -> t <> "" ->
  dynamo_send (delete_command (JString "todos") (JString u) (JString t)) d =
  (Return (match todos d !! (u, t) with
           | Some item =>
               JObject [("Attributes",
                         JObject (map (fun p => (fst p, marshall (snd p))) item))]
           | None => JObject []
           end),
   mkDynamo (delete (u, t) (todos d)) (outage d)).
Proof.
  intros Ho Hu Ht. unfold dynamo_send, delete_command. rewrite Ho.
  unfold DeleteItem.
  cbn [get_opt assoc String.eqb Ascii.eqb Bool.eqb same_table negb wire_key_of].
  apply String.eqb_neq in Hu, Ht. rewrite Hu, Ht. cbn [orb].
  by rewrite Ho.
Qed.

End Table.

Lemma append_inj_l (p a b : string) : (p ++ a = p ++ b)%string -> a = b.
Proof. induction p as [|c p IH]; cbn; [done|]. intros [= Heq]. by apply IH. Qed.

Lemma assoc_map_key (p : string) (h : string -> JsVal) ks k :
  k ∈ ks ->
  assoc (p ++ k)%string (map (fun k => ((p ++ k)%string, h k)) ks) = h k.
Proof.
  induction ks as [|k0 ks IH]; intros Hin; [by apply elem_of_nil in Hin|].
  cbn. destruct (String.eqb (p ++ k) (p ++ k0)) eqn:E.
  - apply String.eqb_eq, append_inj_l in E. by subst.
  - apply String.eqb_neq in E. apply elem_of_cons in Hin as [-> | Hin]; [done|].
    by apply IH.
Qed.

Section Update.
Import DynamoDB.

Lemma parse_set_filter (f : string -> bool) :
  List.filter f updatable <> [] ->
  parse_set ("SET " ++ join ", " (map (fun k => "#" ++ k ++ " = :" ++ k)
                                      (List.filter f updatable)))%string
  = Some (map (fun k => ("#" ++ k, ":" ++ k)%string) (List.filter f updatable)).
Proof.
  unfold updatable. cbn [List.filter].
  destruct (f "title"), (f "description"), (f "status"); intros Hne;
    try done; vm_compute; reflexivity.
Qed.

Lemma resolve_action_placeholders names values k v :
  get_opt names ("#" ++ k)%string = JString k ->
  get_opt values (":" ++ k)%string = v ->
  is_defined v = true ->
  k ∈ updatable ->
  resolve_action names values (("#" ++ k)%string, (":" ++ k)%string) = Some (k, v).
Proof.
  intros Hn Hv Hd Hk. unfold resolve_action, resolve_name, resolve_value.
  cbn [fst snd]. rewrite Hn, Hv.
  assert (String.prefix "#" ("#" ++ k) = true) as -> by (by destruct k).
  assert (String.eqb k "userID" || String.eqb k "taskID" = false) as ->.
  { unfold updatable in Hk.
    repeat (apply elem_of_cons in Hk as [-> | Hk]; [done|]).
    by apply elem_of_nil in Hk. }
  by destruct v.
Qed.

Lemma resolve_supplied (g : string -> JsVal) ks :
  (forall k, k ∈ ks -> k ∈ updatable /\ is_defined (g k) = true) ->
  mapM (resolve_action (JObject (map (fun k => (("#" ++ k)%string, JString k)) ks))
                       (JObject (map (fun k => ((":" ++ k)%string, g k)) ks)))
       (map (fun k => ("#" ++ k, ":" ++ k)%string) ks)
  = Some (map (fun k => (k, g k)) ks).
Proof.
  intros Hks. apply mapM_Some.
  set (names := JObject _). set (values := JObject _).
  assert (Hsub : forall l, (forall k, k ∈ l -> k ∈ ks) ->
            Forall2 (fun x y => resolve_action names values x = Some y)
                    (map (fun k => ("#" ++ k, ":" ++ k)%string) l)
                    (map (fun k => (k, g k)) l)).
  { induction l as [|k l IH]; intros Hl; cbn; constructor.
    - assert (Hk : k ∈ ks) by (apply Hl; left).
      destruct (Hks k Hk) as [Hu Hd].
      apply resolve_action_placeholders; [| |done|done]; subst names values;
        cbn [get_opt].
      + by rewrite (assoc_map_key "#" JString ks k Hk).
      + by rewrite (assoc_map_key ":" g ks k Hk).
    - apply IH. intros k' Hk'. apply Hl. by right. }
  by apply Hsub.
Qed.

Lemma supplied_spec body k :
  k ∈ supplied body -> k ∈ updatable /\ is_defined (get_opt body k) = true.
Proof.
  unfold supplied. rewrite !list_elem_of_In, filter_In. tauto.
Qed.

Lemma supplied_values_defined body :
  List.filter (fun p : string * JsVal => is_defined p.2)
    (map (fun k => ((":" ++ k)%string, get_opt body k)) (supplied body))
  = map (fun k => ((":" ++ k)%string, get_opt body k)) (supplied body).
Proof.
  assert (Hall : forall k, k ∈ supplied body -> is_defined (get_opt body k) = true)
    by (intros k Hk; by apply supplied_spec in Hk as [_ ?]).
  induction (supplied body) as [|k l IH]; [done|]. cbn [map List.filter snd].
  rewrite Hall by left. rewrite IH; [done|]. intros k' Hk'. apply Hall. by right.
Qed.

(** What the table does with the update request of [updateTodo]. *)
Lemma send_update u t body d :
  u <> "" -> t <> "" -> supplied body <> [] ->
  dynamo_send (update_command (JString u) (JString t) body) d =
  if forallb (fun k => marshallable (get_opt body k)) (supplied body) then
    match outage d with
    | Some e => (Throw e, d)
    | None =>
        let new := apply_set (map (fun k => (k, get_opt body k)) (supplied body))
                     (default [("userID", JString u); ("taskID", JString t)]
                              (todos d !! (u, t))) in
        (Return (JObject [("Attributes", JObject new)]),
         mkDynamo (<[(u, t) := new]> (todos d)) None)
    end
  else (Throw MarshallError, d).
Proof.
  intros Hu Ht Hs. unfold dynamo_send, update_command, update_params.
  cbn [get_opt assoc String.eqb Ascii.eqb Bool.eqb marshall_values List.filter
       is_defined marshallable forallb snd andb].
  rewrite supplied_values_defined.
  assert (forallb (fun p : string * JsVal => marshallable p.2)
            (map (fun k => ((":" ++ k)%string, get_opt body k)) (supplied body))
          = forallb (fun k => marshallable (get_opt body k)) (supplied body)) as ->.
  { clear Hs. induction (supplied body) as [|k l IH]; cbn; [done|]. by rewrite IH. }
  destruct (forallb _ (supplied body)); [|done].
  destruct (outage d) as [e|] eqn:Ho; [done|].
  unfold UpdateItem.
  cbn [with_field set_prop get_opt assoc String.eqb Ascii.eqb Bool.eqb same_table negb
       key_of].
  apply String.eqb_neq in Hu, Ht. rewrite Hu, Ht. cbn [orb].
  unfold supplied in *. rewrite (parse_set_filter _ Hs).
  rewrite resolve_supplied.
  - by rewrite Ho.
  - intros k Hk. by apply supplied_spec.
Qed.

End Update.

(** ** The handlers on the table *)

Section OnTable.
Import DynamoDB.
#[local] Existing Instance client.
Context `{Json}.
Local Open Scope list_scope.

Lemma NoDup_supplied body : NoDup (supplied body).
Proof.
  unfold supplied. apply NoDup_ListNoDup, List.NoDup_filter, NoDup_ListNoDup.
  unfold updatable.
  repeat (apply NoDup_cons; split;
          [rewrite ?elem_of_cons, elem_of_nil; intros Hin; by repeat destruct Hin as [Hin|Hin]|]).
  apply NoDup_nil_2.
Qed.

(** Claim C2, as amended.  After a successful update of an existing
    record, the stored record holds the supplied values in the supplied
    fields and is unchanged in every other attribute, [updatedAt],
    [createdAt], [taskID] and [userID] included; the other records of the
    table are unchanged, and the response carries the record as stored. *)
Theorem update_changes_supplied_fields_only props w u t item patch :
  get_opt (assoc "pathParameters" props) "taskID" = JString t ->
  owner_of_query (assoc "queryStringParameters" props) = JString u ->
  updateTodo.body_of (assoc "body" props) = Return patch ->
  todos (store w) !! (u, t) = Some item ->
  statusCode (updateTodo.handler (JObject props) w).1 = 200 ->
  exists item',
    todos (store (updateTodo.handler (JObject props) w).2) !! (u, t) = Some item'
    /\ body (updateTodo.handler (JObject props) w).1
       = JSON_stringify (JObject item')
    /\ supplied patch <> []
    /\ (forall k, k ∈ supplied patch -> assoc k item' = get_opt patch k)
    /\ (forall a, a ∉ supplied patch -> assoc a item' = assoc a item)
    /\ (forall key, key <> (u, t) ->
          todos (store (updateTodo.handler (JObject props) w).2) !! key
          = todos (store w) !! key).
Proof.
  intros Ht Hu Hb Hitem. rewrite updateTodo_cases. cbn zeta.
  rewrite Ht, Hu, Hb. cbn [truthy].
  destruct (String.eqb t "") eqn:Et; [done|].
  destruct (String.eqb u "") eqn:Eu; [done|]. cbn [negb orb].
  apply String.eqb_neq in Et, Eu.
  destruct (nullish patch); [done|].
  destruct (supplied patch) as [|k0 ks] eqn:Hs; [done|].
  assert (Hne : supplied patch <> []) by (by rewrite Hs).
  rewrite <- Hs.
  change (send (update_command (JString u) (JString t) patch) (store w))
    with (dynamo_send (update_command (JString u) (JString t) patch) (store w)).
  rewrite (send_update u t patch (store w) Eu Et Hne).
  destruct (forallb _ _); [|done].
  destruct (outage (store w)); [done|].
  cbn zeta. rewrite Hitem. cbn [default get assoc String.eqb Ascii.eqb Bool.eqb].
  intros _. eexists. cbn [fst snd store called todos body].
  split; [apply lookup_insert_eq|]. split; [done|]. split; [done|].
  split; [|split].
  - intros k Hk. apply assoc_apply_set_one.
    + rewrite map_map. cbn [fst]. rewrite map_id. apply NoDup_supplied.
    + apply list_elem_of_In, in_map_iff. exists k. by rewrite <- list_elem_of_In.
  - intros a Ha. apply assoc_apply_set_other.
    by rewrite map_map, map_id.
  - intros key Hkey. by rewrite lookup_insert_ne.
Qed.

(** Claim C5.  A delete request with valid identifiers removes the key
    from the table.  When a record was there the answer is the 200
    confirmation, which is built from the owner and the taskID alone; when
    none was there the answer is the 404 response and the table is
    unchanged; a second delete of the same key is answered with 404. *)
Theorem delete_reports_whether_record_existed props w u t :
  TABLE_NAME w = JString "todos" ->
  outage (store w) = None ->
  get_opt (assoc "pathParameters" props) "userID" = JString u ->
  get_opt (assoc "pathParameters" props) "taskID" = JString t ->
  u <> "" -> t <> "" ->
  todos (store (deleteTodo.handler (JObject props) w).2) = delete (u, t) (todos (store w))
  /\ (forall item, todos (store w) !! (u, t) = Some item ->
        (deleteTodo.handler (JObject props) w).1 = deleted (JString u) (JString t))
  /\ (todos (store w) !! (u, t) = None ->
        (deleteTodo.handler (JObject props) w).1 = not_found (JString u) (JString t)
        /\ todos (store (deleteTodo.handler (JObject props) w).2) = todos (store w))
  /\ (deleteTodo.handler (JObject props) (deleteTodo.handler (JObject props) w).2).1
     = not_found (JString u) (JString t).
Proof.
  intros Htn Ho Hu Ht Eu Et.
  assert (Hrun : forall w', TABLE_NAME w' = JString "todos" -> outage (store w') = None ->
    deleteTodo.handler (JObject props) w' =
    (match todos (store w') !! (u, t) with
     | Some _ => deleted (JString u) (JString t)
     | None => not_found (JString u) (JString t)
     end,
     called (delete_command (JString "todos") (JString u) (JString t))
            (mkDynamo (delete (u, t) (todos (store w'))) None) w')).
  { intros w' Htn' Ho'. rewrite deleteTodo_cases. cbn zeta.
    rewrite Hu, Ht, Htn'. cbn [truthy].
    apply String.eqb_neq in Eu as Eu', Et as Et'. rewrite Eu', Et'. cbn [negb orb].
    change (send ?c ?d) with (dynamo_send c d).
    rewrite (send_delete u t (store w') Ho' Eu Et), Ho'.
    by destruct (todos (store w') !! (u, t)). }
  rewrite !(Hrun w Htn Ho). cbn [fst snd store called todos].
  split; [done|]. split; [by intros item ->|]. split.
  - intros Hnone. rewrite Hnone. split; [done|]. by apply delete_id.
  - rewrite Hrun by done. cbn [fst store called todos].
    by rewrite lookup_delete_eq.
Qed.

(** Property X19.  Without an owner in the query string [getTodos]
    answers 400 and sends nothing.  With a non-empty owner [u], and the
    store in service, it sends one query and answers 200 with the JSON
    text of the records on the page the store returns: a leading part of
    the partition of [u], which holds the records stored under the keys
    [(u, t)], each once, and no record of another owner.  The page is the
    whole partition when the answer of the store carries no
    [LastEvaluatedKey]; the handler does not read that key.  The table is
    unchanged. *)
Theorem list_returns_first_page_of_partition props w :
  (truthy (owner_of_query (assoc "queryStringParameters" props)) = false ->
   getTodos.handler (JObject props) w
   = (bad_request "Missing userId in query parameters", w))
  /\ (forall u,
        owner_of_query (assoc "queryStringParameters" props) = JString u ->
        u <> "" ->
        outage (store w) = None ->
        exists items output,
          dynamo_send (query_command (JString u)) (store w) = (Return output, store w)
          /\ getTodos.handler (JObject props) w =
             (mkResponse 200 json_headers (JSON_stringify (JArray (map JObject items))),
              called (query_command (JString u)) (store w) w)
          /\ items `prefix_of` partition u (store w)
          /\ (forall item,
                item ∈ partition u (store w)
                <-> exists t, todos (store w) !! (u, t) = Some item)
          /\ partition u (store w)
             ≡ₚ map snd (filter (fun kv => fst (fst kv) = u)
                                (map_to_list (todos (store w))))
          /\ (forall item, item ∈ items -> exists t, todos (store w) !! (u, t) = Some item)
          /\ (get_opt output "LastEvaluatedKey" = JUndefined ->
              items = partition u (store w))).
Proof.
  split.
  - intros Hu. rewrite getTodos_cases. cbn zeta. by rewrite Hu.
  - intros u Hu Eu Ho. exists (query_page u (store w)), (query_output u (store w)).
    split; [by apply send_query|]. split; [|split; [|split; [|split; [|split]]]].
    + rewrite getTodos_cases. cbn zeta. rewrite Hu. cbn [truthy].
      apply String.eqb_neq in Eu. rewrite Eu. cbn [negb].
      change (send ?c ?d) with (dynamo_send c d).
      rewrite (send_query u (store w) Ho). unfold query_output.
      cbn [get app assoc String.eqb Ascii.eqb Bool.eqb]. done.
    + apply query_page_prefix.
    + apply elem_of_partition.
    + unfold partition, partition_rows. by rewrite merge_sort_Permutation.
    + intros item Hin. apply elem_of_partition.
      destruct (query_page_prefix u (store w)) as [rest ->].
      apply elem_of_app. by left.
    + apply query_output_complete.
Qed.

End OnTable.

(** ** Runs on the example table *)

Section Runs.
Import DynamoDB.
Local Open Scope list_scope.

(** Claim C1, on the code.  An update of a key that is not in the table
    is answered with status 200, and the table then holds a record made of
    the key and the supplied field. *)
Theorem update_of_absent_key_creates_record :
  let w := Example.world Example.no_task in
  let r := @updateTodo.handler client (parse_only JNull) Example.complete_t9 w in
  todos (store w) !! ("u1", "t9") = None
  /\ statusCode r.1 = 200
  /\ body r.1 = JSON_stringify (JObject [("userID", JString "u1");
                                         ("taskID", JString "t9");
                                         ("status", JString "completed")])
  /\ todos (store r.2) !! ("u1", "t9")
     = Some [("userID", JString "u1"); ("taskID", JString "t9");
             ("status", JString "completed")].
Proof. vm_compute. done. Qed.

(** Claim C4, on the code.  [createTodo] evaluates
    [new Date().toISOString()] once for [createdAt] and once more for
    [updatedAt]; when the clock moves between the two readings the record
    is stored, and returned, with two different timestamps. *)
Theorem create_reads_the_clock_twice :
  let w := Example.world Example.no_task in
  let r := @createTodo.handler client (parse_only Example.new_task)
             Example.create_task w in
  statusCode r.1 = 200
  /\ exists item,
       todos (store r.2) !! ("u1", Example.uuid 0) = Some item
       /\ body r.1 = JSON_stringify (JObject item)
       /\ assoc "status" item = JString "pending"
       /\ assoc "createdAt" item = JString "2024-01-02T10:00:00.999Z"
       /\ assoc "updatedAt" item = JString "2024-01-02T10:00:01.000Z"
       /\ assoc "createdAt" item <> assoc "updatedAt" item.
Proof. vm_compute. split; [done|]. eexists. repeat split; done. Qed.

(** Against claim C2 as stated: a successful update that leaves
    [updatedAt] as it was. *)
Lemma update_leaves_updatedAt_cex :
  let w := Example.world Example.one_task in
  let r := @updateTodo.handler client (parse_only JNull) Example.complete_t1 w in
  todos (store w) !! ("u1", "t1") = Some Example.buy_milk
  /\ statusCode r.1 = 200
  /\ exists item',
       todos (store r.2) !! ("u1", "t1") = Some item'
       /\ assoc "status" item' = JString "completed"
       /\ assoc "updatedAt" item' = assoc "updatedAt" Example.buy_milk
       /\ strictly_later (assoc "updatedAt" item')
                         (assoc "updatedAt" Example.buy_milk) = false.
Proof. vm_compute. split; [done|]. split; [done|]. eexists. repeat split; done. Qed.

(** Against claim C3 as stated: with the service rejecting every request,
    the 500 responses of [deleteTodo] and [createTodo] contain the text of
    the error. *)
Lemma store_error_text_in_500_body_cex :
  let w := Example.world Example.out_of_service in
  let del := @deleteTodo.handler client Example.delete_t1 w in
  let cre := @createTodo.handler client (parse_only Example.new_task)
               Example.create_task w in
  (forall cmd, (dynamo_send cmd (store w)).1 = Throw Example.throttled
               \/ (dynamo_send cmd (store w)).1 = Throw MarshallError)
  /\ length (sent del.2) = 1%nat
  /\ statusCode del.1 = 500
  /\ body_includes del.1 (message Example.throttled) = true
  /\ length (sent cre.2) = 1%nat
  /\ statusCode cre.1 = 500
  /\ body_includes cre.1 (message Example.throttled) = true.
Proof.
  split.
  - intros [input|input|input|input]; unfold dynamo_send;
      cbn [outage store Example.world Example.out_of_service];
      repeat case_match; cbn [fst]; auto.
  - vm_compute. repeat split; done.
Qed.


(** Against claim C9 as stated: an update request whose body is the text
    [null] has none of the three fields, and is answered with 500, not
    with 400. *)
Lemma update_with_null_body_is_500_cex :
  let w := Example.world Example.one_task in
  let json := parse_only JNull in
  get_opt Example2.update_null_text "body" = JString "null"
  /\ @JSON_parse json "null" = Return JNull
  /\ supplied JNull = []
  /\ (@updateTodo.handler client json Example2.update_null_text w).1 = generic_500
  /\ statusCode (@updateTodo.handler client json Example2.update_null_text w).1 = 500
  /\ sent (@updateTodo.handler client json Example2.update_null_text w).2 = [].
Proof. vm_compute. repeat split; done. Qed.

(** Against claim C6 as stated: [deleteTodo] deletes with the owner
    spelled [userID] and answers 400 with the owner spelled [userId]. *)
Lemma delete_rejects_userId_spelling_cex :
  let w := Example.world Example.one_task in
  statusCode (@deleteTodo.handler client Example.delete_t1 w).1 = 200
  /\ statusCode (@deleteTodo.handler client Example.delete_t1_userId w).1 = 400
  /\ store (@deleteTodo.handler client Example.delete_t1_userId w).2 = store w.
Proof. vm_compute. repeat split; done. Qed.

End Runs.

(** ** The properties at concrete requests *)

Section Instances.
Import DynamoDB.
Local Open Scope list_scope.


Lemma update_without_body_is_500_witness :
  let w := Example.world Example.one_task in
  @updateTodo.handler client (parse_only JNull) Example.update_no_body w = (generic_500, w)
  /\ statusCode (@updateTodo.handler client (parse_only JNull)
                   Example.update_no_body w).1 = 500.
Proof.
  intros w.
  apply (@update_without_body_is_500 client (parse_only JNull)
           [("pathParameters", JObject [("taskID", JString "t1")]);
            ("queryStringParameters", JObject [("userId", JString "u1")])] w);
    [reflexivity | reflexivity | left; reflexivity].
Defined.

Lemma store_failure_gives_500_witness :
  let w := Example.world Example.out_of_service in
  let cmd := delete_command (JString "todos") (JString "u1") (JString "t1") in
  (@run client (parse_only JNull) Delete Example.delete_t1 w).1
  = failure_response Delete Example.throttled.
Proof.
  intros w cmd.
  apply (@store_failure_gives_500 client (parse_only JNull) Delete Example.delete_t1 w cmd
           Example.throttled); vm_compute; reflexivity.
Defined.

End Instances.

Section MoreInstances.
Import DynamoDB.
Local Open Scope list_scope.

Lemma update_sets_supplied_fields_only_witness :
  let w := Example.world Example.one_task in
  let patch := Example2.patch_with_priority in
  supplied patch = ["status"]
  /\ sent (@updateTodo.handler client (parse_only patch) Example2.complete_t1_text w).2
     = [update_command (JString "u1") (JString "t1") patch].
Proof.
  intros w patch. split; [reflexivity|].
  refine (proj1 (proj2 (@update_sets_supplied_fields_only client (parse_only patch)
           [("pathParameters", JObject [("taskID", JString "t1")]);
            ("queryStringParameters", JObject [("userId", JString "u1")]);
            ("body", JSON_stringify patch)] w patch _ _ _ _ _)) _);
    first [reflexivity | discriminate].
Defined.

Lemma owner_alias_in_query_string_witness :
  let w := Example.world Example.one_task in
  @getTodos.handler client Example.list_u1 w
  = @getTodos.handler client Example.list_u1_userID w.
Proof.
  intros w.
  refine (proj1 (@owner_alias_in_query_string client (parse_only JNull)
           [("queryStringParameters", JObject [("userId", JString "u1")])]
           [("queryStringParameters", JObject [("userID", JString "u1")])]
           (JString "u1") w _ _ _ _)); reflexivity.
Defined.

Lemma update_changes_supplied_fields_only_witness :
  let w := Example.world Example.one_task in
  let r := @updateTodo.handler client (parse_only JNull) Example.complete_t1 w in
  exists item',
    todos (store r.2) !! ("u1", "t1") = Some item'
    /\ body r.1 = JSON_stringify (JObject item')
    /\ supplied (JObject [("status", JString "completed")]) <> []
    /\ (forall k, k ∈ supplied (JObject [("status", JString "completed")]) ->
          assoc k item' = get_opt (JObject [("status", JString "completed")]) k)
    /\ (forall a, a ∉ supplied (JObject [("status", JString "completed")]) ->
          assoc a item' = assoc a Example.buy_milk)
    /\ (forall key, key <> ("u1", "t1") ->
          todos (store r.2) !! key = todos (store w) !! key).
Proof.
  intros w r.
  apply (@update_changes_supplied_fields_only (parse_only JNull)
           [("pathParameters", JObject [("taskID", JString "t1")]);
            ("queryStringParameters", JObject [("userId", JString "u1")]);
            ("body", JObject [("status", JString "completed")])]
           w "u1" "t1" Example.buy_milk (JObject [("status", JString "completed")]));
    vm_compute; reflexivity.
Defined.

Lemma delete_reports_whether_record_existed_witness :
  let w := Example.world Example.one_task in
  let r := @deleteTodo.handler client Example.delete_t1 w in
  todos (store r.2) = delete ("u1", "t1") (todos (store w))
  /\ (forall item, todos (store w) !! ("u1", "t1") = Some item ->
        r.1 = deleted (JString "u1") (JString "t1"))
  /\ (todos (store w) !! ("u1", "t1") = None ->
        r.1 = not_found (JString "u1") (JString "t1")
        /\ todos (store r.2) = todos (store w))
  /\ (@deleteTodo.handler client Example.delete_t1 r.2).1
     = not_found (JString "u1") (JString "t1").
Proof.
  intros w r.
  apply (@delete_reports_whether_record_existed
           [("pathParameters",
             JObject [("userID", JString "u1"); ("taskID", JString "t1")])]
           w "u1" "t1"); first [reflexivity | discriminate].
Defined.

Lemma list_returns_first_page_of_partition_witness :
  let w := Example.world Example.one_task in
  exists items output,
    dynamo_send (query_command (JString "u1")) (store w) = (Return output, store w)
    /\ @getTodos.handler client Example.list_u1 w =
       (mkResponse 200 json_headers (JSON_stringify (JArray (map JObject items))),
        called (query_command (JString "u1")) (store w) w)
    /\ items `prefix_of` partition "u1" (store w)
    /\ (forall item, item ∈ partition "u1" (store w)
                     <-> exists t, todos (store w) !! ("u1", t) = Some item)
    /\ partition "u1" (store w)
       ≡ₚ map snd (filter (fun kv => fst (fst kv) = "u1") (map_to_list (todos (store w))))
    /\ (forall item, item ∈ items -> exists t, todos (store w) !! ("u1", t) = Some item)
    /\ (get_opt output "LastEvaluatedKey" = JUndefined -> items = partition "u1" (store w)).
Proof.
  intros w.
  refine (proj2 (@list_returns_first_page_of_partition
           [("queryStringParameters", JObject [("userId", JString "u1")])] w)
           "u1" _ _ _); first [reflexivity | discriminate].
Defined.

End MoreInstances.

(** ** Further properties of the handlers, for every client *)

Section Handlers.
Context `{StoreClient} `{Json}.
Local Open Scope list_scope.

(** Property X1.  [createTodo] on a body that passes its checks, when the store accepts
    the write: the answer is 200 with the JSON text of the new record, the
    one command sent is the put of that record into [todos], and the record
    has the owner, title and description of the body, status [pending] and
    the identifier that [crypto.randomUUID()] returned. *)
Theorem create_success props w text payload result d :
  to_string (assoc "body" props) = Return text ->
  JSON_parse text = Return payload ->
  truthy (get_opt payload "userID") = true ->
  truthy (get_opt payload "title") = true ->
  send (put_command (new_item payload w)) (store w) = (Return result, d) ->
  createTodo.handler (JObject props) w
  = (mkResponse 200 None (JSON_stringify (new_item payload w)),
     called (put_command (new_item payload w)) d (ticked (ticked (drawn w))))
  /\ get_opt (new_item payload w) "userID" = get_opt payload "userID"
  /\ get_opt (new_item payload w) "title" = get_opt payload "title"
  /\ get_opt (new_item payload w) "description" = get_opt payload "description"
  /\ get_opt (new_item payload w) "status" = JString "pending"
  /\ get_opt (new_item payload w) "taskID" = JString (randomUUID w (uuids_drawn w)).
Proof.
  intros Hx Hp Hu Ht Hs. split; [|done].
  rewrite createTodo_cases, Hx, Hp.
  assert (truthy payload = true) as -> by (by destruct payload).
  rewrite Hu, Ht. cbn [negb orb]. cbn zeta. by rewrite Hs.
Qed.

(** Property X2.  [createTodo] reads [userID], [title] and [description] of the body
    and nothing else: two bodies that agree on these three, whatever
    [taskID], [status] or timestamps they carry, get the same response and
    leave the same world. *)
Theorem create_ignores_other_fields props1 props2 text1 text2 payload1 payload2 w :
  to_string (assoc "body" props1) = Return text1 ->
  to_string (assoc "body" props2) = Return text2 ->
  JSON_parse text1 = Return payload1 ->
  JSON_parse text2 = Return payload2 ->
  truthy payload1 = true -> truthy payload2 = true ->
  get_opt payload1 "userID" = get_opt payload2 "userID" ->
  get_opt payload1 "title" = get_opt payload2 "title" ->
  get_opt payload1 "description" = get_opt payload2 "description" ->
  createTodo.handler (JObject props1) w = createTodo.handler (JObject props2) w.
Proof.
  intros X1 X2 H1 H2 T1 T2 Hu Ht Hd.
  rewrite !createTodo_cases, X1, X2, H1, H2, T1, T2.
  unfold new_item. by rewrite Hu, Ht, Hd.
Qed.

(** Property X3.  When [event.body] is an object and not a text, [createTodo] hands
    [JSON.parse] the text of the object.  For an object without a property
    [toString] of its own that text is [[object Object]], and what the
    object holds has no influence on the response or on the world; for an
    object with one the conversion throws, and the answer is 500 with
    nothing sent. *)
Theorem create_object_body_content_unread props1 props2 o1 o2 w :
  assoc "body" props1 = JObject o1 ->
  assoc "body" props2 = JObject o2 ->
  (find_prop "toString" o1 = None -> find_prop "toString" o2 = None ->
   createTodo.handler (JObject props1) w = createTodo.handler (JObject props2) w)
  /\ (find_prop "toString" o1 <> None ->
      createTodo.handler (JObject props1) w
      = (failure_response Create (TypeError "Cannot convert object to primitive value"), w)).
Proof.
  intros H1 H2. split.
  - intros N1 N2. rewrite !createTodo_cases, H1, H2.
    unfold to_string. by rewrite N1, N2.
  - intros N1. rewrite createTodo_cases, H1. unfold to_string.
    by destruct (find_prop "toString" o1).
Qed.

(** Property X4.  A body that [JSON.parse] rejects is answered with 500 and nothing is
    sent to the store: by [createTodo] with the parser's error text after
    [Internal server error], by [updateTodo] with the fixed text. *)
Theorem unparsable_body_is_500 props w e :
  (forall text,
     to_string (assoc "body" props) = Return text ->
     JSON_parse text = Throw e ->
     createTodo.handler (JObject props) w = (failure_response Create e, w))
  /\ (forall text,
        truthy (get_opt (assoc "pathParameters" props) "taskID") = true ->
        truthy (owner_of_query (assoc "queryStringParameters" props)) = true ->
        assoc "body" props = JString text ->
        JSON_parse text = Throw e ->
        updateTodo.handler (JObject props) w = (generic_500, w)).
Proof.
  split.
  - intros text Hx Hp. by rewrite createTodo_cases, Hx, Hp.
  - intros text Ht Ho Hb Hp. rewrite updateTodo_cases. cbn zeta.
    rewrite Ht, Ho, Hb. cbn [negb orb updateTodo.body_of]. by rewrite Hp.
Qed.

(** Property X5.  Every answer of a handler carries one of the status codes the handler
    has a [return] for; only [deleteTodo] can answer 404. *)
Theorem status_code_of_every_response op event w :
  statusCode (run op event w).1 ∈ status_codes op.
Proof.
  assert (event = JUndefined \/ event = JNull \/ (event <> JUndefined /\ event <> JNull))
    as [Hev | [Hev | [Hu Hn]]] by (destruct event; naive_solver).
  1,2: destruct (run_nullish op event w) as [e' ->]; [tauto|];
       destruct op; cbn; set_solver.
  rewrite run_props_of by done. generalize (props_of event) as props. intros props.
  destruct op; cbn [run status_codes].
  - rewrite createTodo_cases.
    destruct (to_string _) as [text|e']; [|cbn; set_solver].
    destruct (JSON_parse _) as [payload|e']; [|cbn; set_solver].
    destruct (negb (truthy payload)); [cbn; set_solver|].
    destruct (negb _ || negb _); [cbn; set_solver|]. cbn zeta.
    destruct (send _ _) as [[r|e'] d]; cbn; set_solver.
  - rewrite getTodos_cases. cbn zeta.
    destruct (negb _); [cbn; set_solver|].
    destruct (send _ _) as [[r|e'] d]; [destruct (get r "Items")|]; cbn; set_solver.
  - rewrite updateTodo_cases. cbn zeta.
    destruct (negb _ || negb _); [cbn; set_solver|].
    destruct (updateTodo.body_of _) as [payload|e']; [|cbn; set_solver].
    destruct (nullish payload); [cbn; set_solver|].
    destruct (supplied _); [cbn; set_solver|].
    destruct (send _ _) as [[r|e'] d]; [destruct (get r "Attributes")|]; cbn; set_solver.
  - rewrite deleteTodo_cases. cbn zeta.
    destruct (negb _ || negb _); [cbn; set_solver|].
    destruct (send _ _) as [[r|e'] d]; [destruct (get r "Attributes") as [a|]|];
      [unfold delete_answer; repeat case_match| |]; cbn; set_solver.
Qed.

End Handlers.

Section Effects.
Context `{StoreClient} `{Json}.
Local Open Scope list_scope.

(** Splits a goal about [run op event w] into the branches of the
    handler. *)
Ltac handler_branches op event w :=
  let Hev := fresh "Hev" in
  let e' := fresh "e" in
  assert (event = JUndefined \/ event = JNull \/ (event <> JUndefined /\ event <> JNull))
    as [Hev | [Hev | [? ?]]] by (destruct event; naive_solver);
  [destruct (run_nullish op event w) as [e' ->]; [tauto|]
  |destruct (run_nullish op event w) as [e' ->]; [tauto|]
  |rewrite run_props_of by done; generalize (props_of event); intros ?;
   destruct op; cbn [run];
   [rewrite createTodo_cases | rewrite getTodos_cases
   |rewrite updateTodo_cases | rewrite deleteTodo_cases];
   cbn zeta; try unfold delete_answer; repeat case_match].

(** Property X6.  A handler sends at most one command per request: a command of its own
    class, to the table [todos], or for [deleteTodo] to the table that
    [process.env.TABLE_NAME] names. *)
Theorem at_most_one_command op event w :
  sent (run op event w).2 = sent w
  \/ exists input,
       sent (run op event w).2 = sent w ++ [command_of op input]
       /\ get_opt input "TableName"
          = match op with Delete => TABLE_NAME w | _ => JString "todos" end.
Proof.
  handler_branches op event w; cbn [snd sent called];
    first [by left | right; eexists; split; reflexivity].
Qed.

(** Property X7.  Only [createTodo] calls [crypto.randomUUID()] and reads the clock, and
    only on a request that passes its checks: then it draws one
    identifier and reads the clock twice, before it calls the store and
    whatever the store answers.  No handler changes what they return
    later, nor [process.env.TABLE_NAME]. *)
Theorem randomness_and_clock_use op event w :
  let w' := (run op event w).2 in
  TABLE_NAME w' = TABLE_NAME w
  /\ randomUUID w' = randomUUID w
  /\ now w' = now w
  /\ ((uuids_drawn w' = uuids_drawn w /\ clock_reads w' = clock_reads w
       /\ (op = Create -> sent w' = sent w))
      \/ (op = Create /\ uuids_drawn w' = S (uuids_drawn w)
          /\ clock_reads w' = S (S (clock_reads w))
          /\ exists cmd, sent w' = sent w ++ [cmd])).
Proof.
  cbn zeta.
  handler_branches op event w;
    cbn [snd sent called ticked drawn TABLE_NAME randomUUID now uuids_drawn clock_reads];
    (split; [done|]); (split; [done|]); (split; [done|]);
    first [by left | right; repeat split; eauto].
Qed.

(** Property X8.  The [Content-Type] header is set on the 200 answers of [getTodos] and
    [updateTodo] and on no other answer of any handler. *)
Theorem headers_of_every_response op event w :
  headers (run op event w).1
  = if (match op with ListByOwner | UpdatePartial => true | _ => false end)
       && (statusCode (run op event w).1 =? 200)
    then Some [("Content-Type", "application/json")]%string
    else None.
Proof.
  set (expected := fun (o : Operation) (r : Response) =>
         if (match o with ListByOwner | UpdatePartial => true | _ => false end)
            && (statusCode r =? 200)
         then Some [("Content-Type", "application/json")]%string
         else None).
  change (headers (run op event w).1 = expected op (run op event w).1).
  assert (Hexp : forall o r, expected o r =
         if (match o with ListByOwner | UpdatePartial => true | _ => false end)
            && (statusCode r =? 200)
         then Some [("Content-Type", "application/json")]%string
         else None) by done.
  clearbody expected.
  handler_branches op event w; rewrite Hexp; first [reflexivity | destruct op; reflexivity].
Qed.

End Effects.

Section Inputs.
Context `{StoreClient} `{Json}.

(** Property X9.  When the query string carries a truthy [userId], [getTodos] and
    [updateTodo] use it and ignore [userID]; otherwise (no [userId], or an
    empty one) they use [userID]. *)
Theorem userId_takes_precedence props props' w :
  assoc "pathParameters" props' = assoc "pathParameters" props ->
  assoc "body" props' = assoc "body" props ->
  assoc "queryStringParameters" props'
  = (if truthy (get_opt (assoc "queryStringParameters" props) "userId")
     then JObject [("userId", get_opt (assoc "queryStringParameters" props) "userId")]
     else JObject [("userID", get_opt (assoc "queryStringParameters" props) "userID")]) ->
  getTodos.handler (JObject props') w = getTodos.handler (JObject props) w
  /\ updateTodo.handler (JObject props') w = updateTodo.handler (JObject props) w.
Proof.
  intros Hp Hb Hq.
  assert (Ho : owner_of_query (assoc "queryStringParameters" props')
               = owner_of_query (assoc "queryStringParameters" props)).
  { rewrite Hq. unfold owner_of_query, js_or.
    destruct (truthy (get_opt (assoc "queryStringParameters" props) "userId")) eqn:E;
      cbn [get_opt assoc String.eqb Ascii.eqb Bool.eqb]; [by rewrite E|].
    cbn [truthy]. done. }
  split.
  - rewrite !getTodos_cases. cbn zeta. by rewrite Ho.
  - rewrite !updateTodo_cases. cbn zeta. by rewrite Ho, Hp, Hb.
Qed.

(** Property X10.  What each handler reads of the event: [createTodo] the body alone,
    [getTodos] the query string alone, [deleteTodo] the path parameters
    alone, [updateTodo] these three and nothing else. *)
Theorem handlers_read_only_their_inputs props props' w :
  (assoc "body" props' = assoc "body" props ->
   createTodo.handler (JObject props') w = createTodo.handler (JObject props) w)
  /\ (assoc "queryStringParameters" props' = assoc "queryStringParameters" props ->
      getTodos.handler (JObject props') w = getTodos.handler (JObject props) w)
  /\ (assoc "pathParameters" props' = assoc "pathParameters" props ->
      deleteTodo.handler (JObject props') w = deleteTodo.handler (JObject props) w)
  /\ (assoc "pathParameters" props' = assoc "pathParameters" props ->
      assoc "queryStringParameters" props' = assoc "queryStringParameters" props ->
      assoc "body" props' = assoc "body" props ->
      updateTodo.handler (JObject props') w = updateTodo.handler (JObject props) w).
Proof.
  repeat split.
  - intros Hb. by rewrite !createTodo_cases, Hb.
  - intros Hq. by rewrite !getTodos_cases, Hq.
  - intros Hp. by rewrite !deleteTodo_cases, Hp.
  - intros Hp Hq Hb. by rewrite !updateTodo_cases, Hp, Hq, Hb.
Qed.

End Inputs.

(** ** Property lists, continued *)

Lemma find_prop_set_prop_eq k v item : find_prop k (set_prop k v item) = Some v.
Proof.
  induction item as [|[k' v'] item IH]; cbn.
  - by rewrite String.eqb_refl.
  - destruct (String.eqb k k') eqn:E; cbn; rewrite ?String.eqb_refl, ?E; done.
Qed.

Lemma find_prop_set_prop_ne a k v item :
  a <> k -> find_prop a (set_prop k v item) = find_prop a item.
Proof.
  intros Hne. apply String.eqb_neq in Hne.
  induction item as [|[k' v'] item IH]; cbn.
  - by rewrite Hne.
  - destruct (String.eqb k k') eqn:E; cbn.
    + apply String.eqb_eq in E as <-. by rewrite Hne.
    + by rewrite IH.
Qed.

Lemma set_prop_same k v item : find_prop k item = Some v -> set_prop k v item = item.
Proof.
  induction item as [|[k' v'] item IH]; cbn; [done|].
  destruct (String.eqb k k') eqn:E.
  - apply String.eqb_eq in E as <-. by intros [= ->].
  - intros Hf. by rewrite IH.
Qed.

Lemma find_prop_apply_set_other a actions item :
  a ∉ map fst actions ->
  find_prop a (DynamoDB.apply_set actions item) = find_prop a item.
Proof.
  unfold DynamoDB.apply_set. revert item.
  induction actions as [|[k v] actions IH]; intros item Hnot; cbn; [done|].
  cbn in Hnot. apply not_elem_of_cons in Hnot as [Hne Hnot].
  rewrite IH by done. by apply find_prop_set_prop_ne.
Qed.

Lemma find_prop_apply_set_one a v actions item :
  NoDup (map fst actions) -> (a, v) ∈ actions ->
  find_prop a (DynamoDB.apply_set actions item) = Some v.
Proof.
  unfold DynamoDB.apply_set. revert item.
  induction actions as [|[k x] actions IH]; intros item Hnd Hin; cbn.
  - by apply elem_of_nil in Hin.
  - cbn in Hnd. apply NoDup_cons in Hnd as [Hk Hnd].
    apply elem_of_cons in Hin as [Heq | Hin]; [injection Heq as -> ->|].
    + fold (DynamoDB.apply_set actions (set_prop k x item)).
      rewrite find_prop_apply_set_other by done. apply find_prop_set_prop_eq.
    + by apply IH.
Qed.

Lemma apply_set_same actions item :
  (forall k v, (k, v) ∈ actions -> find_prop k item = Some v) ->
  DynamoDB.apply_set actions item = item.
Proof.
  unfold DynamoDB.apply_set.
  induction actions as [|[k v] actions IH]; intros Hall; cbn; [done|].
  rewrite set_prop_same by (apply Hall; left). apply IH.
  intros k' v' Hin. apply Hall. by right.
Qed.

(** Setting the same attributes a second time changes nothing. *)
Lemma apply_set_idempotent actions item :
  NoDup (map fst actions) ->
  DynamoDB.apply_set actions (DynamoDB.apply_set actions item)
  = DynamoDB.apply_set actions item.
Proof.
  intros Hnd. apply apply_set_same. intros k v Hin.
  by apply find_prop_apply_set_one.
Qed.

(** ** The handlers on the table, one after the other *)

Section OnTableRuns.
Import DynamoDB.
#[local] Existing Instance client.
Context `{Json}.
Local Open Scope list_scope.

Lemma truthy_is_defined v : truthy v = true -> is_defined v = true.
Proof. by destruct v. Qed.

(** What the table does with the put request of [createTodo]. *)
Lemma send_put item d :
  dynamo_send (put_command (JObject item)) d =
  let kept := stored_attributes (JObject item) in
  if forallb (fun p => marshallable p.2) kept then
    match outage d with
    | Some e => (Throw e, d)
    | None =>
        match key_of kept with
        | Some k => (Return (JObject []), mkDynamo (<[k := kept]> (todos d)) None)
        | None =>
            (Throw (ValidationException
                      "One or more parameter values were invalid: Missing or mistyped key"),
             d)
        end
    end
  else (Throw MarshallError, d).
Proof.
  unfold dynamo_send, put_command, stored_attributes, props_of.
  cbn [get_opt assoc String.eqb Ascii.eqb Bool.eqb marshall_values].
  cbn zeta.
  destruct (forallb _ _); [|reflexivity].
  destruct (outage d) eqn:Ho; [reflexivity|].
  unfold PutItem.
  cbn [with_field set_prop get_opt assoc String.eqb Ascii.eqb Bool.eqb same_table negb].
  destruct (key_of _); rewrite ?Ho; reflexivity.
Qed.

Lemma assoc_missing a (l : list (string * JsVal)) :
  a ∉ map fst l -> assoc a l = JUndefined.
Proof.
  induction l as [|[k v] l IH]; cbn [map fst assoc]; [done|].
  intros [Hne Hnot]%not_elem_of_cons.
  apply String.eqb_neq in Hne. rewrite Hne. by apply IH.
Qed.

(** Leaving out the attributes that are [undefined] changes no attribute
    that is read. *)
Lemma assoc_filter_defined a (l : list (string * JsVal)) :
  NoDup (map fst l) ->
  assoc a (List.filter (fun p => is_defined p.2) l) = assoc a l.
Proof.
  induction l as [|[k v] l IH]; cbn [map fst snd assoc List.filter]; [done|].
  intros [Hk Hnd]%NoDup_cons.
  destruct (is_defined v) eqn:Hv; cbn [assoc]; rewrite IH by done; [done|].
  destruct (String.eqb a k) eqn:E; [|done].
  apply String.eqb_eq in E as ->. destruct v; try done. by apply assoc_missing.
Qed.

(** The attributes of the record of [createTodo] that reach the table
    read as those of the record. *)
Lemma stored_new_item payload w a :
  assoc a (stored_attributes (new_item payload w)) = get_opt (new_item payload w) a.
Proof.
  unfold stored_attributes, new_item, props_of, get_opt.
  apply assoc_filter_defined. cbn [map fst].
  repeat (apply NoDup_cons; split;
          [rewrite ?elem_of_cons, elem_of_nil; intros Hin;
           by repeat destruct Hin as [Hin|Hin]|]).
  apply NoDup_nil_2.
Qed.

Lemma key_of_new_item payload w k :
  key_of (stored_attributes (new_item payload w)) = Some k ->
  get_opt payload "userID" = JString k.1 /\ k.1 <> ""
  /\ k.2 = randomUUID w (uuids_drawn w) /\ k.2 <> "".
Proof.
  unfold key_of. rewrite !stored_new_item. unfold new_item.
  cbn [get_opt assoc String.eqb Ascii.eqb Bool.eqb].
  destruct (get_opt payload "userID") as [| | | |u| |]; try done.
  destruct (String.eqb u "") eqn:Eu; [done|]. cbn [orb].
  destruct (String.eqb (randomUUID w (uuids_drawn w)) "") eqn:Eid; [done|].
  intros [= <-]. cbn [fst snd].
  by apply String.eqb_neq in Eu, Eid.
Qed.

Lemma send_put_new_item payload w d :
  dynamo_send (put_command (new_item payload w)) d =
  let kept := stored_attributes (new_item payload w) in
  if forallb (fun p => marshallable p.2) kept then
    match outage d with
    | Some e => (Throw e, d)
    | None =>
        match key_of kept with
        | Some k => (Return (JObject []), mkDynamo (<[k := kept]> (todos d)) None)
        | None =>
            (Throw (ValidationException
                      "One or more parameter values were invalid: Missing or mistyped key"),
             d)
        end
    end
  else (Throw MarshallError, d).
Proof. apply send_put. Qed.

(** A create that is answered with 200, on the table. *)
Lemma createTodo_200_on_table props w text payload :
  to_string (assoc "body" props) = Return text ->
  JSON_parse text = Return payload ->
  statusCode (createTodo.handler (JObject props) w).1 = 200 ->
  exists u,
    get_opt payload "userID" = JString u /\ u <> ""
    /\ randomUUID w (uuids_drawn w) <> ""
    /\ truthy (get_opt payload "title") = true
    /\ outage (store w) = None
    /\ createTodo.handler (JObject props) w
       = (mkResponse 200 None (JSON_stringify (new_item payload w)),
          called (put_command (new_item payload w))
            (mkDynamo (<[(u, randomUUID w (uuids_drawn w))
                         := stored_attributes (new_item payload w)]>
                         (todos (store w))) None)
            (ticked (ticked (drawn w)))).
Proof.
  intros Hx Hp. rewrite createTodo_cases, Hx, Hp.
  destruct (truthy payload); cbn [negb]; [|done].
  destruct (truthy (get_opt payload "userID")); [|done].
  destruct (truthy (get_opt payload "title")); [|done]. cbn [negb orb]. cbn zeta.
  change (send ?c ?d) with (dynamo_send c d).
  rewrite !send_put_new_item. cbn zeta.
  destruct (forallb _ _); [|done].
  destruct (outage (store w)) eqn:Ho; [done|].
  destruct (key_of _) as [[u t]|] eqn:Hk; [|done].
  apply key_of_new_item in Hk as (Hu & Eu & Ht & Et). cbn [fst snd] in *. subst t.
  intros _. exists u. by repeat split.
Qed.

(** The records on a page are records of the partition. *)
Lemma elem_of_query_page u d item :
  item ∈ query_page u d -> exists t, todos d !! (u, t) = Some item.
Proof.
  intros Hin. apply elem_of_partition.
  destruct (query_page_prefix u d) as [rest ->]. apply elem_of_app. by left.
Qed.

Lemma getTodos_on_table props w u :
  owner_of_query (assoc "queryStringParameters" props) = JString u ->
  u <> "" -> outage (store w) = None ->
  getTodos.handler (JObject props) w
  = (mkResponse 200 json_headers (JSON_stringify (JArray (map JObject (query_page u (store w))))),
     called (query_command (JString u)) (store w) w).
Proof.
  intros Hu Eu Ho. rewrite getTodos_cases. cbn zeta. rewrite Hu. cbn [truthy].
  apply String.eqb_neq in Eu. rewrite Eu. cbn [negb].
  change (send ?c ?d) with (dynamo_send c d).
  rewrite (send_query u (store w) Ho). unfold query_output.
  cbn [get app assoc String.eqb Ascii.eqb Bool.eqb]. done.
Qed.

Lemma deleteTodo_on_table props w u t :
  TABLE_NAME w = JString "todos" -> outage (store w) = None ->
  get_opt (assoc "pathParameters" props) "userID" = JString u ->
  get_opt (assoc "pathParameters" props) "taskID" = JString t ->
  u <> "" -> t <> "" ->
  deleteTodo.handler (JObject props) w
  = (match todos (store w) !! (u, t) with
     | Some _ => deleted (JString u) (JString t)
     | None => not_found (JString u) (JString t)
     end,
     called (delete_command (JString "todos") (JString u) (JString t))
       (mkDynamo (delete (u, t) (todos (store w))) None) w).
Proof.
  intros Htn Ho Hu Ht Eu Et. rewrite deleteTodo_cases. cbn zeta.
  rewrite Hu, Ht, Htn. cbn [truthy].
  apply String.eqb_neq in Eu as Eu', Et as Et'. rewrite Eu', Et'. cbn [negb orb].
  change (send ?c ?d) with (dynamo_send c d).
  rewrite (send_delete u t (store w) Ho Eu Et), Ho.
  by destruct (todos (store w) !! (u, t)).
Qed.

Lemma updateTodo_on_table props w u t patch :
  get_opt (assoc "pathParameters" props) "taskID" = JString t ->
  owner_of_query (assoc "queryStringParameters" props) = JString u ->
  u <> "" -> t <> "" ->
  updateTodo.body_of (assoc "body" props) = Return patch ->
  supplied patch <> [] ->
  forallb (fun k => marshallable (get_opt patch k)) (supplied patch) = true ->
  outage (store w) = None ->
  let new := apply_set (map (fun k => (k, get_opt patch k)) (supplied patch))
               (default [("userID", JString u); ("taskID", JString t)]
                        (todos (store w) !! (u, t))) in
  updateTodo.handler (JObject props) w
  = (mkResponse 200 json_headers (JSON_stringify (JObject new)),
     called (update_command (JString u) (JString t) patch)
       (mkDynamo (<[(u, t) := new]> (todos (store w))) None) w).
Proof.
  intros Ht Hu Eu Et Hb Hs Hm Ho new. subst new. rewrite updateTodo_cases. cbn zeta.
  rewrite Ht, Hu, Hb. cbn [truthy].
  apply String.eqb_neq in Eu as Eu', Et as Et'. rewrite Eu', Et'. cbn [negb orb].
  assert (nullish patch = false) as ->.
  { destruct patch; try done; by destruct Hs. }
  destruct (supplied patch) as [|k0 ks] eqn:Hs'; [done|]. rewrite <- Hs' in *.
  change (send ?c ?d) with (dynamo_send c d).
  rewrite (send_update u t patch (store w) Eu Et Hs), Hm, Ho.
  cbn zeta. cbn [get assoc String.eqb Ascii.eqb Bool.eqb]. done.
Qed.

(** What an update that is answered with 200 tells about the request
    and the store. *)
Lemma updateTodo_200 props w u t patch :
  get_opt (assoc "pathParameters" props) "taskID" = JString t ->
  owner_of_query (assoc "queryStringParameters" props) = JString u ->
  updateTodo.body_of (assoc "body" props) = Return patch ->
  statusCode (updateTodo.handler (JObject props) w).1 = 200 ->
  u <> "" /\ t <> "" /\ supplied patch <> []
  /\ forallb (fun k => marshallable (get_opt patch k)) (supplied patch) = true
  /\ outage (store w) = None.
Proof.
  intros Ht Hu Hb. rewrite updateTodo_cases. cbn zeta.
  rewrite Ht, Hu, Hb. cbn [truthy].
  destruct (String.eqb t "") eqn:Et; [done|].
  destruct (String.eqb u "") eqn:Eu; [done|]. cbn [negb orb].
  apply String.eqb_neq in Et, Eu.
  destruct (nullish patch); [done|].
  destruct (supplied patch) as [|k0 ks] eqn:Hs; [done|].
  assert (Hne : supplied patch <> []) by (by rewrite Hs).
  rewrite <- Hs.
  change (send ?c ?d) with (dynamo_send c d).
  rewrite (send_update u t patch (store w) Eu Et Hne).
  destruct (forallb _ _); [|done].
  destruct (outage (store w)); [done|]. done.
Qed.

End OnTableRuns.

Section Scenarios.
Import DynamoDB.
#[local] Existing Instance client.
Context `{Json}.
Local Open Scope list_scope.

(** Property X11.  A create that is answered with 200, on the table: the
    owner in the body is a non-empty string, and the record is stored
    under the key made of the owner and the new identifier, replacing
    whatever was stored under that key.  Every attribute reads in the
    stored record as in the record of the response; a [description] that
    the body does not have is not stored at all.  No other key changes. *)
Theorem create_stores_record_under_new_key props w text payload :
  to_string (assoc "body" props) = Return text ->
  JSON_parse text = Return payload ->
  statusCode (createTodo.handler (JObject props) w).1 = 200 ->
  let r := createTodo.handler (JObject props) w in
  exists u,
    get_opt payload "userID" = JString u /\ u <> ""
    /\ body r.1 = JSON_stringify (new_item payload w)
    /\ todos (store r.2) !! (u, randomUUID w (uuids_drawn w))
       = Some (stored_attributes (new_item payload w))
    /\ (forall a, assoc a (stored_attributes (new_item payload w))
                  = get_opt (new_item payload w) a)
    /\ (get_opt payload "description" = JUndefined ->
        find_prop "description" (stored_attributes (new_item payload w)) = None)
    /\ (forall key, key <> (u, randomUUID w (uuids_drawn w)) ->
          todos (store r.2) !! key = todos (store w) !! key).
Proof.
  intros Hx Hp H200 r. subst r.
  destruct (createTodo_200_on_table props w text payload Hx Hp H200)
    as (u & Hu & Eu & Eid & Ht & Ho & ->).
  cbn [fst snd statusCode body store called todos].
  exists u. split; [done|]. split; [done|]. split; [done|].
  split; [apply lookup_insert_eq|]. split; [apply stored_new_item|]. split.
  - intros Hd. unfold stored_attributes, new_item, props_of.
    rewrite Hd, Hu. cbn [List.filter snd is_defined].
    rewrite (truthy_is_defined _ Ht). reflexivity.
  - intros key Hkey. by rewrite lookup_insert_ne.
Qed.

(** Property X12.  Create, then list, both answered by the table: every record listed
    for the owner is the record just created or a record the owner had
    before; and when the answer of the store to the query carries no
    [LastEvaluatedKey], the record just created is among them. *)
Theorem create_then_list props props' w text payload u :
  to_string (assoc "body" props) = Return text ->
  JSON_parse text = Return payload ->
  statusCode (createTodo.handler (JObject props) w).1 = 200 ->
  get_opt payload "userID" = JString u ->
  owner_of_query (assoc "queryStringParameters" props') = JString u ->
  let w1 := (createTodo.handler (JObject props) w).2 in
  exists items,
    (getTodos.handler (JObject props') w1).1
    = mkResponse 200 json_headers (JSON_stringify (JArray (map JObject items)))
    /\ (forall item, item ∈ items ->
          item = stored_attributes (new_item payload w)
          \/ exists t, todos (store w) !! (u, t) = Some item)
    /\ (get_opt (query_output u (store w1)) "LastEvaluatedKey" = JUndefined ->
        stored_attributes (new_item payload w) ∈ items).
Proof.
  intros Hx Hp H200 Hu Hq w1. subst w1.
  destruct (createTodo_200_on_table props w text payload Hx Hp H200)
    as (u' & Hu' & Eu & Eid & Ht & Ho & ->).
  assert (u' = u) as -> by congruence. cbn [snd].
  rewrite (getTodos_on_table props' _ u) by done. cbn [fst].
  eexists. split; [reflexivity|]. split.
  - intros item [t Hitem]%elem_of_query_page. cbn [store called todos] in Hitem.
    destruct (decide ((u, randomUUID w (uuids_drawn w)) = (u, t))) as [Heq|Hne].
    + rewrite Heq, lookup_insert_eq in Hitem. left. congruence.
    + rewrite lookup_insert_ne in Hitem by done. right. eauto.
  - intros ->%query_output_complete.
    apply elem_of_partition. exists (randomUUID w (uuids_drawn w)).
    cbn [store called todos]. apply lookup_insert_eq.
Qed.

(** Property X13.  Create, then delete the new record: the delete is confirmed with 200
    and, when the new key was not in use before, the table is back to what
    it was. *)
Theorem create_then_delete props props' w text payload u :
  to_string (assoc "body" props) = Return text ->
  JSON_parse text = Return payload ->
  statusCode (createTodo.handler (JObject props) w).1 = 200 ->
  TABLE_NAME w = JString "todos" ->
  get_opt payload "userID" = JString u ->
  get_opt (assoc "pathParameters" props') "userID" = JString u ->
  get_opt (assoc "pathParameters" props') "taskID"
  = JString (randomUUID w (uuids_drawn w)) ->
  let w1 := (createTodo.handler (JObject props) w).2 in
  (deleteTodo.handler (JObject props') w1).1
  = deleted (JString u) (JString (randomUUID w (uuids_drawn w)))
  /\ (todos (store w) !! (u, randomUUID w (uuids_drawn w)) = None ->
      todos (store (deleteTodo.handler (JObject props') w1).2) = todos (store w)).
Proof.
  intros Hx Hp H200 Htn Hu Hdu Hdt w1. subst w1.
  destruct (createTodo_200_on_table props w text payload Hx Hp H200)
    as (u' & Hu' & Eu & Eid & Ht & Ho & Hrun).
  assert (u' = u) as -> by congruence.
  rewrite Hrun. cbn [snd].
  rewrite (deleteTodo_on_table props' _ u (randomUUID w (uuids_drawn w))) by done.
  cbn [fst snd store called todos]. rewrite lookup_insert_eq. split; [done|].
  intros Hfresh. rewrite delete_insert_eq. by apply delete_id.
Qed.

(** Property X14.  An update that is answered with 200 is idempotent: sending the same
    request again gives the same response and leaves the table as the
    first one left it. *)
Theorem update_is_idempotent props w u t patch :
  get_opt (assoc "pathParameters" props) "taskID" = JString t ->
  owner_of_query (assoc "queryStringParameters" props) = JString u ->
  decodes_to (assoc "body" props) patch ->
  statusCode (updateTodo.handler (JObject props) w).1 = 200 ->
  let w1 := (updateTodo.handler (JObject props) w).2 in
  (updateTodo.handler (JObject props) w1).1 = (updateTodo.handler (JObject props) w).1
  /\ store (updateTodo.handler (JObject props) w1).2 = store w1.
Proof.
  intros Ht Hu Hb%body_of_decodes H200 w1. subst w1.
  destruct (updateTodo_200 props w u t patch Ht Hu Hb H200) as (Eu & Et & Hs & Hm & Ho).
  rewrite (updateTodo_on_table props w u t patch) by done. cbn zeta. cbn [fst snd].
  rewrite (updateTodo_on_table props _ u t patch) by done. cbn zeta.
  cbn [fst snd store called todos]. rewrite lookup_insert_eq. cbn [default from_option id].
  rewrite apply_set_idempotent.
  - split; [done|]. by rewrite insert_insert_eq.
  - rewrite map_map, map_id. apply NoDup_supplied.
Qed.

(** Property X15.  Delete, then list: every record listed for the owner was stored for
    the owner under another taskID; and when the answer of the store to
    the query carries no [LastEvaluatedKey], these are all listed. *)
Theorem delete_then_list props props' w u t :
  TABLE_NAME w = JString "todos" -> outage (store w) = None ->
  get_opt (assoc "pathParameters" props) "userID" = JString u ->
  get_opt (assoc "pathParameters" props) "taskID" = JString t ->
  u <> "" -> t <> "" ->
  owner_of_query (assoc "queryStringParameters" props') = JString u ->
  let w1 := (deleteTodo.handler (JObject props) w).2 in
  exists items,
    (getTodos.handler (JObject props') w1).1
    = mkResponse 200 json_headers (JSON_stringify (JArray (map JObject items)))
    /\ (forall item,
          item ∈ items ->
          exists t', t' <> t /\ todos (store w) !! (u, t') = Some item)
    /\ (get_opt (query_output u (store w1)) "LastEvaluatedKey" = JUndefined ->
        forall item t', t' <> t -> todos (store w) !! (u, t') = Some item ->
                        item ∈ items).
Proof.
  intros Htn Ho Hu Ht Eu Et Hq w1. subst w1.
  rewrite (deleteTodo_on_table props w u t) by done. cbn [snd].
  rewrite (getTodos_on_table props' _ u) by done. cbn [fst].
  eexists. split; [reflexivity|]. split.
  - intros item [t' Hitem]%elem_of_query_page. cbn [store called todos] in Hitem.
    destruct (decide (t' = t)) as [->|Hne].
    + by rewrite lookup_delete_eq in Hitem.
    + rewrite lookup_delete_ne in Hitem by congruence. eauto.
  - intros ->%query_output_complete item t' Hne Hitem.
    apply elem_of_partition. exists t'. cbn [store called todos].
    rewrite lookup_delete_ne by congruence. done.
Qed.

(** Property X16.  An update of a key that is not in the table, when it is answered
    with 200, has created a record made of the two key attributes and the
    supplied fields, and of nothing else. *)
Theorem update_of_absent_key_makes_sparse_record props w u t patch :
  get_opt (assoc "pathParameters" props) "taskID" = JString t ->
  owner_of_query (assoc "queryStringParameters" props) = JString u ->
  decodes_to (assoc "body" props) patch ->
  todos (store w) !! (u, t) = None ->
  statusCode (updateTodo.handler (JObject props) w).1 = 200 ->
  let r := updateTodo.handler (JObject props) w in
  exists item,
    todos (store r.2) !! (u, t) = Some item
    /\ body r.1 = JSON_stringify (JObject item)
    /\ assoc "userID" item = JString u
    /\ assoc "taskID" item = JString t
    /\ (forall k, k ∈ supplied patch -> assoc k item = get_opt patch k)
    /\ (forall a, a ∉ supplied patch -> a <> "userID" -> a <> "taskID" ->
          assoc a item = JUndefined).
Proof.
  intros Ht Hu Hb%body_of_decodes Hnone H200 r. subst r.
  destruct (updateTodo_200 props w u t patch Ht Hu Hb H200) as (Eu & Et & Hs & Hm & Ho).
  rewrite (updateTodo_on_table props w u t patch) by done. cbn zeta.
  cbn [fst snd statusCode body store called todos]. rewrite Hnone. cbn [default from_option id].
  eexists. split; [apply lookup_insert_eq|]. split; [done|].
  assert (Hkeys : forall a, a ∉ supplied patch ->
            assoc a (apply_set (map (fun k => (k, get_opt patch k)) (supplied patch))
                       [("userID", JString u); ("taskID", JString t)])
            = assoc a [("userID", JString u); ("taskID", JString t)]).
  { intros a Ha. apply assoc_apply_set_other. by rewrite map_map, map_id. }
  assert (Hnot : forall a, a ∉ updatable -> a ∉ supplied patch).
  { intros a Ha Hin. by apply supplied_spec in Hin as [? _]. }
  split; [|split; [|split]].
  - rewrite Hkeys; [done|]. apply Hnot. unfold updatable.
    rewrite !elem_of_cons, elem_of_nil. by intros [?|[?|[?|?]]].
  - rewrite Hkeys; [done|]. apply Hnot. unfold updatable.
    rewrite !elem_of_cons, elem_of_nil. by intros [?|[?|[?|?]]].
  - intros k Hk. apply assoc_apply_set_one.
    + rewrite map_map, map_id. apply NoDup_supplied.
    + apply list_elem_of_In, in_map_iff. exists k. by rewrite <- list_elem_of_In.
  - intros a Ha Hau Hat. rewrite Hkeys by done. cbn.
    apply String.eqb_neq in Hau, Hat. by rewrite Hau, Hat.
Qed.

(** Property X17.  Create, then update the new record, both answered with 200: the
    answer to the update carries the record as stored, which has the
    supplied fields from the update and every other attribute as
    [createTodo] wrote it. *)
Theorem create_then_update props props' w text payload u patch :
  to_string (assoc "body" props) = Return text ->
  JSON_parse text = Return payload ->
  statusCode (createTodo.handler (JObject props) w).1 = 200 ->
  get_opt payload "userID" = JString u ->
  get_opt (assoc "pathParameters" props') "taskID"
  = JString (randomUUID w (uuids_drawn w)) ->
  owner_of_query (assoc "queryStringParameters" props') = JString u ->
  decodes_to (assoc "body" props') patch ->
  statusCode (updateTodo.handler (JObject props')
                (createTodo.handler (JObject props) w).2).1 = 200 ->
  let w1 := (createTodo.handler (JObject props) w).2 in
  let r := updateTodo.handler (JObject props') w1 in
  exists item,
    todos (store r.2) !! (u, randomUUID w (uuids_drawn w)) = Some item
    /\ body r.1 = JSON_stringify (JObject item)
    /\ (forall k, k ∈ supplied patch -> assoc k item = get_opt patch k)
    /\ (forall a, a ∉ supplied patch ->
          assoc a item = get_opt (new_item payload w) a).
Proof.
  intros Hx Hp H200 Hu Hpt Hpo Hb%body_of_decodes H200' w1 r. subst r w1.
  destruct (updateTodo_200 props' _ u _ patch Hpt Hpo Hb H200')
    as (Eu & Et & Hs & Hm & Ho').
  destruct (createTodo_200_on_table props w text payload Hx Hp H200)
    as (u' & Hu' & _ & _ & Ht & Ho & Hrun).
  assert (u' = u) as -> by congruence.
  rewrite Hrun in Ho' |- *. cbn [snd] in Ho' |- *.
  rewrite (updateTodo_on_table props' _ u (randomUUID w (uuids_drawn w)) patch) by done.
  cbn zeta. cbn [fst snd statusCode body store called todos].
  rewrite !lookup_insert_eq. cbn [default from_option id].
  eexists. split; [reflexivity|]. split; [done|]. split.
  - intros k Hk. apply assoc_apply_set_one.
    + rewrite map_map, map_id. apply NoDup_supplied.
    + apply list_elem_of_In, in_map_iff. exists k. by rewrite <- list_elem_of_In.
  - intros a Ha. rewrite assoc_apply_set_other by (by rewrite map_map, map_id).
    apply stored_new_item.
Qed.

End Scenarios.

(** ** A partition of more than one page *)

Section LargePartition.
Import DynamoDB.
Local Open Scope list_scope.

Lemma length_append (s t : string) :
  String.length (s ++ t) = (String.length s + String.length t)%nat.
Proof.
  induction s as [|c s IH]; [done|].
  change (S (String.length (s ++ t)) = S (String.length s + String.length t)).
  by rewrite IH.
Qed.

Lemma length_doubled n s :
  String.length (Example3.doubled n s) = (2 ^ n * String.length s)%nat.
Proof.
  revert s. induction n as [|n IH]; intros s; cbn [Example3.doubled].
  - cbn. lia.
  - rewrite IH, length_append. rewrite Nat.pow_succ_r'. lia.
Qed.

Lemma long_text_bytes : N.of_nat (String.length Example3.long_text) = 393216%N.
Proof.
  unfold Example3.long_text. rewrite length_doubled.
  rewrite Nat2N.inj_mul, Nat2N.inj_pow. reflexivity.
Qed.

Lemma partition_rows_four_notes s :
  partition_rows "u1" (Example3.four_notes s)
  = [(("u1", "t1"), Example3.notes "t1" s); (("u1", "t2"), Example3.notes "t2" s);
     (("u1", "t3"), Example3.notes "t3" s); (("u1", "t4"), Example3.notes "t4" s)].
Proof. vm_compute. reflexivity. Qed.

Lemma item_bytes_notes t s :
  item_bytes (Example3.notes t s)
  = (N.of_nat (String.length t) + N.of_nat (String.length s) + 114)%N.
Proof.
  unfold item_bytes, Example3.notes. cbn [fold_right fst snd value_bytes String.length]. lia.
Qed.

(** The first page of the four long notes holds three of them. *)
Lemma query_page_four_long_notes :
  query_page "u1" Example3.four_long_notes
  = [Example3.notes "t1" Example3.long_text; Example3.notes "t2" Example3.long_text;
     Example3.notes "t3" Example3.long_text].
Proof.
  unfold query_page, Example3.four_long_notes. rewrite partition_rows_four_notes.
  unfold first_page. cbn [snd].
  rewrite !item_bytes_notes, long_text_bytes.
  reflexivity.
Qed.

Lemma lookup_four_notes s t :
  t ∈ ["t1"; "t2"; "t3"; "t4"] ->
  todos (Example3.four_notes s) !! ("u1", t) = Some (Example3.notes t s).
Proof.
  rewrite !elem_of_cons, elem_of_nil.
  intros [-> | [-> | [-> | [-> | []]]]]; vm_compute; reflexivity.
Qed.

(** Claim C8, on the code.  The table holds four records of owner [u1],
    of 384 KB each.  [getTodos] sends its one query and answers 200 with
    the records [t1], [t2] and [t3] of the first page; the record [t4],
    which the table holds for [u1], is not in the answer, and the
    [LastEvaluatedKey] that the store returns with the page is not
    read. *)
Theorem list_omits_records_beyond_first_page :
  let w := Example.world Example3.four_long_notes in
  exists items output,
    dynamo_send (query_command (JString "u1")) (store w) = (Return output, store w)
    /\ @getTodos.handler client Example.list_u1 w
       = (mkResponse 200 json_headers (JSON_stringify (JArray (map JObject items))),
          called (query_command (JString "u1")) (store w) w)
    /\ map (assoc "taskID") items = [JString "t1"; JString "t2"; JString "t3"]
    /\ todos (store w) !! ("u1", "t4") = Some (Example3.notes "t4" Example3.long_text)
    /\ (Example3.notes "t4" Example3.long_text ∉ items)
    /\ get_opt output "LastEvaluatedKey"
       = JObject [("userID", JString "u1"); ("taskID", JString "t3")].
Proof.
  intros w.
  exists (query_page "u1" Example3.four_long_notes),
         (query_output "u1" Example3.four_long_notes).
  split; [by apply send_query|]. split; [|split; [|split; [|split]]].
  - apply (@getTodos_on_table
             [("queryStringParameters", JObject [("userId", JString "u1")])] w "u1");
      done.
  - rewrite query_page_four_long_notes. reflexivity.
  - apply lookup_four_notes. set_solver.
  - rewrite query_page_four_long_notes. rewrite !elem_of_cons, elem_of_nil.
    unfold Example3.notes. intros [[=] | [[=] | [[=] | []]]].
  - unfold query_output, Example3.four_long_notes.
    rewrite !partition_rows_four_notes.
    unfold first_page, limit_reached. cbn [snd].
    rewrite !item_bytes_notes, long_text_bytes. reflexivity.
Qed.

End LargePartition.

(** ** The further properties at concrete requests *)

Section MoreWitnesses.
Import DynamoDB.
Local Open Scope list_scope.

Lemma create_success_witness :
  let w := Example.world Example.one_task in
  (@createTodo.handler client (parse_only Example.new_task) Example.create_task w).1
  = mkResponse 200 None (JSON_stringify (new_item Example.new_task w)).
Proof.
  intros w.
  refine (f_equal fst (proj1 (@create_success client (parse_only Example.new_task)
           [("body", JSON_stringify Example.new_task)] w _ Example.new_task (JObject [])
           (mkDynamo (<[("u1", Example.uuid 0) := props_of (new_item Example.new_task w)]>
                        (todos Example.one_task)) None) _ _ _ _ _)));
    reflexivity.
Defined.

Lemma create_ignores_other_fields_witness :
  let w := Example.world Example.one_task in
  let json := parse_among [Example.new_task; Example2.forged_task] in
  @createTodo.handler client json Example.create_task w
  = @createTodo.handler client json Example2.create_forged w.
Proof.
  intros w json.
  eapply (@create_ignores_other_fields client json
            [("body", JSON_stringify Example.new_task)]
            [("body", JSON_stringify Example2.forged_task)]
            _ _ Example.new_task Example2.forged_task w); reflexivity.
Defined.

Lemma create_object_body_content_unread_witness :
  let w := Example.world Example.one_task in
  @createTodo.handler client (parse_only Example.new_task) Example2.create_from_object w
  = @createTodo.handler client (parse_only Example.new_task)
      Example2.create_from_other_object w.
Proof.
  intros w.
  exact (proj1 (@create_object_body_content_unread client (parse_only Example.new_task)
                  [("body", Example.new_task)] [("body", Example2.forged_task)]
                  _ _ w eq_refl eq_refl) eq_refl eq_refl).
Defined.

Lemma unparsable_body_is_500_witness :
  let w := Example.world Example.one_task in
  @createTodo.handler client (parse_only Example.new_task) Example2.create_garbage w
  = (failure_response Create (SyntaxError "Unexpected token in JSON"), w).
Proof.
  intros w.
  eapply (proj1 (@unparsable_body_is_500 client (parse_only Example.new_task)
                   [("body", JString "{userID: u1")] w
                   (SyntaxError "Unexpected token in JSON"))); reflexivity.
Defined.

Lemma userId_takes_precedence_witness :
  let w := Example.world Example.one_task in
  @getTodos.handler client Example.list_u1 w = @getTodos.handler client Example2.list_both w.
Proof.
  intros w.
  refine (proj1 (@userId_takes_precedence client (parse_only JNull)
           [("queryStringParameters",
             JObject [("userId", JString "u1"); ("userID", JString "u2")])]
           [("queryStringParameters", JObject [("userId", JString "u1")])]
           w _ _ _)); reflexivity.
Defined.

Lemma handlers_read_only_their_inputs_witness :
  let w := Example.world Example.one_task in
  @deleteTodo.handler client
    (JObject [("queryStringParameters", JObject [("userId", JString "u2")]);
              ("pathParameters",
               JObject [("userID", JString "u1"); ("taskID", JString "t1")])]) w
  = @deleteTodo.handler client Example.delete_t1 w.
Proof.
  intros w.
  refine (proj1 (proj2 (proj2 (@handlers_read_only_their_inputs client (parse_only JNull)
           [("pathParameters",
             JObject [("userID", JString "u1"); ("taskID", JString "t1")])]
           [("queryStringParameters", JObject [("userId", JString "u2")]);
            ("pathParameters",
             JObject [("userID", JString "u1"); ("taskID", JString "t1")])] w))) _);
    reflexivity.
Defined.

End MoreWitnesses.

Section ScenarioWitnesses.
Import DynamoDB.
Local Open Scope list_scope.

Lemma create_stores_record_under_new_key_witness :
  let w := Example.world Example.one_task in
  let r := @createTodo.handler client (parse_only Example.new_task) Example.create_task w in
  exists u,
    get_opt Example.new_task "userID" = JString u /\ u <> ""
    /\ body r.1 = JSON_stringify (new_item Example.new_task w)
    /\ todos (store r.2) !! (u, Example.uuid 0)
       = Some (stored_attributes (new_item Example.new_task w))
    /\ (forall a, assoc a (stored_attributes (new_item Example.new_task w))
                  = get_opt (new_item Example.new_task w) a)
    /\ (get_opt Example.new_task "description" = JUndefined ->
        find_prop "description" (stored_attributes (new_item Example.new_task w)) = None)
    /\ (forall key, key <> (u, Example.uuid 0) ->
          todos (store r.2) !! key = todos (store w) !! key).
Proof.
  intros w r.
  eapply (@create_stores_record_under_new_key (parse_only Example.new_task)
            [("body", JSON_stringify Example.new_task)] w _ Example.new_task);
    vm_compute; reflexivity.
Defined.

Lemma create_then_list_witness :
  let w := Example.world Example.one_task in
  let w1 := (@createTodo.handler client (parse_only Example.new_task)
               Example.create_task w).2 in
  exists items,
    (@getTodos.handler client Example.list_u1 w1).1
    = mkResponse 200 json_headers (JSON_stringify (JArray (map JObject items)))
    /\ (forall item, item ∈ items ->
          item = stored_attributes (new_item Example.new_task w)
          \/ exists t, todos (store w) !! ("u1", t) = Some item)
    /\ (get_opt (query_output "u1" (store w1)) "LastEvaluatedKey" = JUndefined ->
        stored_attributes (new_item Example.new_task w) ∈ items).
Proof.
  intros w w1.
  eapply (@create_then_list (parse_only Example.new_task)
            [("body", JSON_stringify Example.new_task)]
            [("queryStringParameters", JObject [("userId", JString "u1")])]
            w _ Example.new_task "u1");
    vm_compute; reflexivity.
Defined.

Lemma create_then_delete_witness :
  let w := Example.world Example.one_task in
  let w1 := (@createTodo.handler client (parse_only Example.new_task)
               Example.create_task w).2 in
  (@deleteTodo.handler client Example2.delete_created w1).1
  = deleted (JString "u1") (JString (Example.uuid 0))
  /\ (todos (store w) !! ("u1", Example.uuid 0) = None ->
      todos (store (@deleteTodo.handler client Example2.delete_created w1).2)
      = todos (store w)).
Proof.
  intros w w1.
  eapply (@create_then_delete (parse_only Example.new_task)
            [("body", JSON_stringify Example.new_task)]
            [("pathParameters",
              JObject [("userID", JString "u1"); ("taskID", JString (Example.uuid 0))])]
            w _ Example.new_task "u1");
    vm_compute; reflexivity.
Defined.

Lemma update_is_idempotent_witness :
  let w := Example.world Example.one_task in
  let json := parse_only Example2.patch_with_priority in
  let w1 := (@updateTodo.handler client json Example2.complete_t1_text w).2 in
  (@updateTodo.handler client json Example2.complete_t1_text w1).1
  = (@updateTodo.handler client json Example2.complete_t1_text w).1
  /\ store (@updateTodo.handler client json Example2.complete_t1_text w1).2 = store w1.
Proof.
  intros w json w1.
  apply (@update_is_idempotent json
           [("pathParameters", JObject [("taskID", JString "t1")]);
            ("queryStringParameters", JObject [("userId", JString "u1")]);
            ("body", JSON_stringify Example2.patch_with_priority)]
           w "u1" "t1" Example2.patch_with_priority);
    vm_compute; reflexivity.
Defined.

Lemma delete_then_list_witness :
  let w := Example.world Example.one_task in
  let w1 := (@deleteTodo.handler client Example.delete_t1 w).2 in
  exists items,
    (@getTodos.handler client Example.list_u1 w1).1
    = mkResponse 200 json_headers (JSON_stringify (JArray (map JObject items)))
    /\ (forall item,
          item ∈ items ->
          exists t', t' <> "t1" /\ todos (store w) !! ("u1", t') = Some item)
    /\ (get_opt (query_output "u1" (store w1)) "LastEvaluatedKey" = JUndefined ->
        forall item t', t' <> "t1" -> todos (store w) !! ("u1", t') = Some item ->
                        item ∈ items).
Proof.
  intros w w1.
  apply (@delete_then_list
           [("pathParameters",
             JObject [("userID", JString "u1"); ("taskID", JString "t1")])]
           [("queryStringParameters", JObject [("userId", JString "u1")])]
           w "u1" "t1");
    first [reflexivity | discriminate].
Defined.

Lemma update_of_absent_key_makes_sparse_record_witness :
  let w := Example.world Example.no_task in
  let json := parse_only Example2.patch_with_priority in
  let patch := Example2.patch_with_priority in
  let r := @updateTodo.handler client json Example2.complete_t9_text w in
  exists item,
    todos (store r.2) !! ("u1", "t9") = Some item
    /\ body r.1 = JSON_stringify (JObject item)
    /\ assoc "userID" item = JString "u1"
    /\ assoc "taskID" item = JString "t9"
    /\ (forall k, k ∈ supplied patch -> assoc k item = get_opt patch k)
    /\ (forall a, a ∉ supplied patch -> a <> "userID" -> a <> "taskID" ->
          assoc a item = JUndefined).
Proof.
  intros w json patch r.
  apply (@update_of_absent_key_makes_sparse_record json
           [("pathParameters", JObject [("taskID", JString "t9")]);
            ("queryStringParameters", JObject [("userId", JString "u1")]);
            ("body", JSON_stringify Example2.patch_with_priority)]
           w "u1" "t9" patch);
    vm_compute; reflexivity.
Defined.

Lemma create_then_update_witness :
  let w := Example.world Example.one_task in
  let json := parse_among [Example.new_task; Example2.patch_with_priority] in
  let patch := Example2.patch_with_priority in
  let w1 := (@createTodo.handler client json Example.create_task w).2 in
  let r := @updateTodo.handler client json Example2.complete_created_text w1 in
  exists item,
    todos (store r.2) !! ("u1", Example.uuid 0) = Some item
    /\ body r.1 = JSON_stringify (JObject item)
    /\ (forall k, k ∈ supplied patch -> assoc k item = get_opt patch k)
    /\ (forall a, a ∉ supplied patch ->
          assoc a item = get_opt (new_item Example.new_task w) a).
Proof.
  intros w json patch w1 r.
  eapply (@create_then_update json
            [("body", JSON_stringify Example.new_task)]
            [("pathParameters", JObject [("taskID", JString (Example.uuid 0))]);
             ("queryStringParameters", JObject [("userId", JString "u1")]);
             ("body", JSON_stringify Example2.patch_with_priority)]
            w _ Example.new_task "u1" patch);
    vm_compute; reflexivity.
Defined.

End ScenarioWitnesses.

(** ** What a request can do to the table *)

Section Footprint.
Context `{StoreClient} `{Json}.

Lemma store_after_run op event w :
  store (run op event w).2 = store w
  \/ exists input, store (run op event w).2 = (send (command_of op input) (store w)).2.
Proof.
  assert (event = JUndefined \/ event = JNull \/ (event <> JUndefined /\ event <> JNull))
    as [Hev | [Hev | [Hu Hn]]] by (destruct event; naive_solver).
  1,2: destruct (run_nullish op event w) as [e' ->]; [tauto|]; by left.
  rewrite run_props_of by done. generalize (props_of event). intros props.
  destruct op; cbn [run command_of].
  - rewrite createTodo_cases.
    destruct (to_string _) as [text|e']; [|by left].
    destruct (JSON_parse _) as [payload|e']; [|by left].
    destruct (negb (truthy payload)); [by left|].
    destruct (negb _ || negb _); [by left|]. cbn zeta.
    right. exists (JObject [("TableName", JString "todos"); ("Item", new_item payload w)]).
    unfold put_command.
    destruct (send _ _) as [[r|e'] d]; cbn [snd store called]; reflexivity.
  - rewrite getTodos_cases. cbn zeta.
    destruct (negb _); [by left|].
    right.
    exists (JObject [("TableName", JString "todos");
                     ("KeyConditionExpression", JString "userID = :uid");
                     ("ExpressionAttributeValues",
                      JObject [(":uid", owner_of_query
                                          (assoc "queryStringParameters" props))])]).
    unfold query_command.
    destruct (send _ _) as [[r|e'] d]; [destruct (get r "Items")|];
      cbn [snd store called]; reflexivity.
  - rewrite updateTodo_cases. cbn zeta.
    destruct (negb _ || negb _); [by left|].
    destruct (updateTodo.body_of _) as [payload|e']; [|by left].
    destruct (nullish payload); [by left|].
    destruct (supplied _); [by left|].
    right.
    exists (update_params (owner_of_query (assoc "queryStringParameters" props))
                          (get_opt (assoc "pathParameters" props) "taskID") payload).
    unfold update_command.
    destruct (send _ _) as [[r|e'] d]; [destruct (get r "Attributes")|];
      cbn [snd store called]; reflexivity.
  - rewrite deleteTodo_cases. cbn zeta.
    destruct (negb _ || negb _); [by left|].
    right.
    exists (JObject [("TableName", TABLE_NAME w);
                     ("Key",
                      JObject [("userID",
                                JObject [("S", get_opt (assoc "pathParameters" props)
                                                       "userID")]);
                               ("taskID",
                                JObject [("S", get_opt (assoc "pathParameters" props)
                                                       "taskID")])]);
                     ("ReturnValues", JString "ALL_OLD")]).
    unfold delete_command.
    destruct (send _ _) as [[r|e'] d]; [destruct (get r "Attributes")|];
      cbn [snd store called]; reflexivity.
Qed.

End Footprint.

Section TableFootprint.
Import DynamoDB.

Ltac outer_case :=
  lazymatch goal with
  | |- context [snd (if ?b then _ else _)] => destruct b
  | |- context [snd (match ?x with _ => _ end)] => destruct x
  end.

Lemma dynamo_send_footprint cmd d :
  exists key, forall key', key' <> key ->
    todos (dynamo_send cmd d).2 !! key' = todos d !! key'.
Proof.
  assert (Hsame : exists key : string * string, forall key', key' <> key ->
                    todos d !! key' = todos d !! key')
    by (by exists ("", "")%string).
  destruct cmd as [input|input|input|input]; unfold dynamo_send;
    change (?p.2) with (snd p).
  - destruct (marshall_values _); [|exact Hsame].
    destruct (outage d); [exact Hsame|]. unfold PutItem.
    repeat (outer_case; cbn [snd]; try exact Hsame).
    cbn [todos]. eexists. intros key' Hne. by rewrite lookup_insert_ne.
  - destruct (marshall_values _); [|exact Hsame].
    destruct (outage d); [exact Hsame|]. unfold Query.
    repeat (outer_case; cbn [snd]; try exact Hsame).
  - destruct (marshall_values _); [|exact Hsame].
    destruct (marshall_values _); [|exact Hsame].
    destruct (outage d); [exact Hsame|]. unfold UpdateItem.
    repeat (outer_case; cbn [snd]; try exact Hsame).
    cbn [todos]. eexists. intros key' Hne. by rewrite lookup_insert_ne.
  - destruct (outage d); [exact Hsame|]. unfold DeleteItem.
    repeat (outer_case; cbn [snd]; try exact Hsame).
    cbn [todos]. eexists. intros key' Hne. by rewrite lookup_delete_ne.
Qed.

Lemma dynamo_query_reads input d : (dynamo_send (QueryCommand input) d).2 = d.
Proof.
  unfold dynamo_send. change (?p.2) with (snd p).
  destruct (marshall_values _); [|done].
  destruct (outage d); [done|]. unfold Query.
  repeat (outer_case; cbn [snd]; try done).
Qed.

#[local] Existing Instance client.
Context `{Json}.

(** Property X18.  Whatever the request, a handler changes the table in at most one
    key, and [getTodos] does not change the store at all. *)
Theorem request_touches_at_most_one_key op event w :
  (exists key, forall key', key' <> key ->
     todos (store (run op event w).2) !! key' = todos (store w) !! key')
  /\ (op = ListByOwner -> store (run op event w).2 = store w).
Proof.
  split.
  - destruct (store_after_run op event w) as [-> | [input ->]].
    + by exists ("", "")%string.
    + apply (dynamo_send_footprint (command_of op input) (store w)).
  - intros ->. destruct (store_after_run ListByOwner event w) as [-> | [input ->]];
      [done|]. apply dynamo_query_reads.
Qed.

End TableFootprint.
